(** * The keeper registry client (package [keeper], file [client.go])

    A shallow embedding of the registry client.  HTTP traffic is modelled
    by a tree of calls ([IO]): every [client.Do] of the Go code is one [Do]
    node whose continuation receives what that call returned.  net/http
    follows redirects inside one such call, so a node stands for the request
    handed to the HTTP client and for the response the call ends with, not
    for every request on the wire.  Methods of
    [*keeperClient] additionally thread the receiver, so that the absence of
    writes to the client is a theorem and not a convention. *)

From Stdlib Require Import ZArith NArith String Ascii List Bool Lia.
From stdpp Require Import base list strings pretty.

Open Scope string_scope.
Open Scope Z_scope.

(** ** Go values *)

(** A Go [error] is represented by its message; [nil] is [None]. *)
Definition error := string.

(** The pair (value, error) returned by a fallible library call. *)
Inductive Result (A : Type) : Type :=
| Ok (a : A)
| Err (err : error).
Arguments Ok {A} a.
Arguments Err {A} err.

(** ** net/http *)

Inductive Method := MethodGet | MethodPost | MethodPut | MethodDelete.

Definition StatusOK : Z := 200.
Definition StatusCreated : Z := 201.
Definition StatusNoContent : Z := 204.
Definition StatusMultipleChoices : Z := 300.
Definition StatusNotFound : Z := 404.

(** [req_Body = None] is [http.NoBody]; [Some b] is [bytes.NewReader(b)]. *)
Record Request := mkRequest {
  req_Method : Method;
  req_URL : string;
  req_Header : list (string * string);
  req_Body : option string
}.

(** [Body] is what [io.ReadAll(resp.Body)] yields once it is called. *)
Record Response := mkResponse {
  StatusCode : Z;
  Body : Result string
}.

(** [Header.Set]: the value replaces whatever the key held. *)
Definition Header_Set (req : Request) (key value : string) : Request :=
  {| req_Method := req_Method req;
     req_URL := req_URL req;
     req_Header :=
       (key, value) :: List.filter (fun kv => negb (String.eqb (fst kv) key)) (req_Header req);
     req_Body := req_Body req |}.

(** ** Wire types and configuration *)

(** Modelled from the spec: [types.Config] of go-mod-registry, the Registry
    Configuration of the data model: the registry address, the caller's own
    identity (key, host, port) and the health-check route and interval.  The
    client reads the five service fields; the address is only read by
    [GetRegistryUrl]. *)
Module Config.
Record t := mk {
  Protocol : string;
  Host : string;
  Port : Z;
  ServiceKey : string;
  ServiceHost : string;
  ServicePort : Z;
  CheckRoute : string;
  CheckInterval : string
}.
End Config.

(** Modelled from the spec: [types.ServiceEndpoint], the resolved address
    of a service: identifier, host, port, and no other field. *)
Module ServiceEndpoint.
Record t := mk {
  ServiceId : string;
  Host : string;
  Port : Z
}.
(** The Go zero value [types.ServiceEndpoint{}]. *)
Definition zero : t := {| ServiceId := ""; Host := ""; Port := 0 |}.
End ServiceEndpoint.

(** Modelled from the spec: the wire types of the package, which the listed
    sources use but do not declare.  A registration record carries the
    service identifier, host, port, a health-check descriptor (interval,
    path, probe type) and the status the registry observed; a request adds
    the API version; every refusal decodes to an envelope with a message.
    The fields are those [client.go] reads or writes. *)
Module HealthCheck.
Record t := mk {
  Interval : string;
  Path : string;
  Type_ : string
}.
End HealthCheck.

Module RegistrationDTO.
Record t := mk {
  ServiceId : string;
  Host : string;
  Port : Z;
  HealthCheck : HealthCheck.t;
  Status : string
}.
End RegistrationDTO.

Record Versionable := mkVersionable { apiVersion : string }.
Record BaseRequest := mkBaseRequest { BaseRequest_Versionable : Versionable }.

Record AddRegistrationRequest := mkAddRegistrationRequest {
  AddRegistrationRequest_BaseRequest : BaseRequest;
  AddRegistrationRequest_Registration : RegistrationDTO.t
}.

Record BaseResponse := mkBaseResponse { Message : string }.
Record RegistrationResponse := mkRegistrationResponse { Registration : RegistrationDTO.t }.
Record MultiRegistrationsResponse :=
  mkMultiRegistrationsResponse { Registrations : list RegistrationDTO.t }.

(** ** The client *)

Record keeperClient := mkKeeperClient {
  config : Config.t;
  keeperUrl : string;
  serviceKey : string;
  serviceHost : string;
  servicePort : Z;
  healthCheckRoute : string;
  healthCheckInterval : string
}.

(** ** What the package takes from elsewhere

    The route and header constants of the package, [Config.GetRegistryUrl]
    of go-mod-registry, and the pieces of the Go library whose results the
    client only passes along: URL parsing inside [http.NewRequest], the JSON
    codec at the four types it is used at, and the non-ASCII half of
    [strings.EqualFold]. *)
Class Runtime := {
  ApiVersion : string;
  ApiRegisterRoute : string;
  ApiRegistrationByServiceIdRoute : string;
  ApiAllRegistrationRoute : string;
  ApiPingRoute : string;
  ContentType : string;
  ContentTypeJSON : string;
  GetRegistryUrl : Config.t -> string;
  url_Parse : string -> option error;
  json_Marshal : AddRegistrationRequest -> Result string;
  json_Unmarshal_BaseResponse : string -> Result BaseResponse;
  json_Unmarshal_RegistrationResponse : string -> Result RegistrationResponse;
  json_Unmarshal_MultiRegistrationsResponse : string -> Result MultiRegistrationsResponse;
  EqualFold_hasUnicode : string -> string -> bool
}.

(** ** Effects *)

(** A computation that may call the transport. *)
Inductive IO (A : Type) : Type :=
| Ret (a : A)
| Do (req : Request) (k : Result Response -> IO A).
Arguments Ret {A} a.
Arguments Do {A} req k.

Fixpoint io_bind {A B : Type} (m : IO A) (f : A -> IO B) : IO B :=
  match m with
  | Ret a => f a
  | Do req k => Do req (fun r => io_bind (k r) f)
  end.

(** A method with receiver [*keeperClient]. *)
Definition Meth (A : Type) : Type := keeperClient -> IO (A * keeperClient).

(** Sequencing, for computations and for methods alike. *)
Class Monad (M : Type -> Type) := {
  bind {A B : Type} : M A -> (A -> M B) -> M B;
  ret {A : Type} : A -> M A
}.

#[export] Instance IO_Monad : Monad IO :=
  {| ret := @Ret; bind := @io_bind |}.

#[export] Instance Meth_Monad : Monad Meth :=
  {| ret := fun A a k => Ret (a, k);
     bind := fun A B m f k => io_bind (m k) (fun ak => f (fst ak) (snd ak)) |}.

Notation "x <- m ;; f" := (bind m (fun x => f))
  (at level 100, m at next level, right associativity).

(** Reading the receiver. *)
Definition this : Meth keeperClient := fun k => Ret (k, k).

(** A call that has no access to the receiver. *)
Definition liftIO {A : Type} (m : IO A) : Meth A :=
  fun k => io_bind m (fun a => Ret (a, k)).

(** [client.Do(req)] for [client := http.Client{Timeout: defaultTimeout}]:
    one call of the HTTP client.  The client follows redirects on its own,
    so the answer is the response of the last hop. *)
Definition client_Do (req : Request) : IO (Result Response) :=
  Do req Ret.

(** The registry seen from the client: what a call of the HTTP client
    returns for a request, given the requests handed to it before. *)
Definition Network := list Request -> Request -> Result Response.

Fixpoint run {A : Type} (net : Network) (sent : list Request) (p : IO A)
  : A * list Request :=
  match p with
  | Ret a => (a, sent)
  | Do req k => run net (sent ++ [req]) (k (net sent req))
  end.

(** Calling method [m] on client [c] against [net], nothing sent before.
    The [trace] of the outcome lists the requests handed to the HTTP client,
    in order, one per [client.Do] or [client.Get]. *)
Definition call {A : Type} (net : Network) (m : Meth A) (c : keeperClient)
  : (A * keeperClient) * list Request :=
  run net [] (m c).

Definition result {A : Type} (o : (A * keeperClient) * list Request) : A := fst (fst o).
Definition receiver {A : Type} (o : (A * keeperClient) * list Request) : keeperClient :=
  snd (fst o).
Definition trace {A : Type} (o : (A * keeperClient) * list Request) : list Request := snd o.

(** ** strings.EqualFold

    The byte loop of the Go library; at the first byte pair with the high
    bit set the remainders go to the rune loop, which is taken from the
    runtime. *)
Section EqualFold.
Context `{rt : Runtime}.

Definition byte_of (c : ascii) : N := N_of_ascii c.

Fixpoint EqualFold (s t : string) : bool :=
  match s, t with
  | String sr s', String tr t' =>
      if (128 <=? N.lor (byte_of sr) (byte_of tr))%N then EqualFold_hasUnicode s t
      else if (byte_of tr =? byte_of sr)%N then EqualFold s' t'
      else
        let lo := N.min (byte_of sr) (byte_of tr) in
        let hi := N.max (byte_of sr) (byte_of tr) in
        if ((65 <=? lo) && (lo <=? 90) && (hi =? lo + 97 - 65))%N
        then EqualFold s' t'
        else false
  | EmptyString, EmptyString => true
  | _, _ => false
  end.

(** The two ways the byte loop moves on: equal bytes, or an upper-case
    letter against its lower-case form. *)
Definition byte_fold_eq (sr tr : ascii) : bool :=
  (byte_of tr =? byte_of sr)%N ||
  ((65 <=? N.min (byte_of sr) (byte_of tr)) &&
   (N.min (byte_of sr) (byte_of tr) <=? 90) &&
   (N.max (byte_of sr) (byte_of tr) =? N.min (byte_of sr) (byte_of tr) + 97 - 65))%N.

(** Strings the byte loop handles alone. *)
Definition all_ascii (s : string) : Prop :=
  forall c : ascii, In c (list_ascii_of_string s) -> (byte_of c < 128)%N.
End EqualFold.

(** ** client.go *)
Section Client.
Context `{rt : Runtime}.

(** [http.NewRequest]: fails exactly when the URL does not parse; the
    methods used here are all valid. *)
Definition http_NewRequest (method : Method) (url : string) (body : option string)
  : Result Request :=
  match url_Parse url with
  | Some err => Err err
  | None =>
      Ok {| req_Method := method; req_URL := url; req_Header := []; req_Body := body |}
  end.

(** [client.Get(url)]. *)
Definition client_Get (url : string) : IO (Result Response) :=
  match http_NewRequest MethodGet url None with
  | Err err => ret (Err err)
  | Ok req => client_Do req
  end.

Definition NewKeeperClient (registryConfig : Config.t)
  : IO (keeperClient * option error) :=
  let client :=
    {| config := registryConfig;
       keeperUrl := GetRegistryUrl registryConfig;
       serviceKey := Config.ServiceKey registryConfig;
       serviceHost := "";
       servicePort := 0;
       healthCheckRoute := "";
       healthCheckInterval := "" |} in
  let client :=
    if negb (String.eqb (Config.ServiceHost registryConfig) "") then
      {| config := config client;
         keeperUrl := keeperUrl client;
         serviceKey := serviceKey client;
         serviceHost := Config.ServiceHost registryConfig;
         servicePort := Config.ServicePort registryConfig;
         healthCheckRoute := Config.CheckRoute registryConfig;
         healthCheckInterval := Config.CheckInterval registryConfig |}
    else client in
  ret (client, None).

(** getRegistryByService invokes the GET registry by service API and
    returns the response. *)
Definition getRegistryByService (registryUrl : string) : IO (Result Response) :=
  match http_NewRequest MethodGet registryUrl None with
  | Err err => ret (Err ("failed to create http request: " +:+ err))
  | Ok req =>
      r <- client_Do req ;;
      match r with
      | Err err => ret (Err ("http error: " +:+ err))
      | Ok resp => ret (Ok resp)
      end
  end.

(** The request [Register] encodes. *)
Definition registrationReq (k : keeperClient) : AddRegistrationRequest :=
  {| AddRegistrationRequest_BaseRequest :=
       {| BaseRequest_Versionable := {| apiVersion := ApiVersion |} |};
     AddRegistrationRequest_Registration :=
       {| RegistrationDTO.ServiceId := serviceKey k;
          RegistrationDTO.Host := serviceHost k;
          RegistrationDTO.Port := servicePort k;
          RegistrationDTO.HealthCheck :=
            {| HealthCheck.Interval := healthCheckInterval k;
               HealthCheck.Path := healthCheckRoute k;
               HealthCheck.Type_ := "http" |};
          RegistrationDTO.Status := "" |} |}.

Definition Register : Meth (option error) :=
  k <- this ;;
  if String.eqb (serviceKey k) "" || String.eqb (serviceHost k) "" ||
     (servicePort k =? 0) ||
     String.eqb (healthCheckRoute k) "" || String.eqb (healthCheckInterval k) ""
  then ret (Some "unable to register service with keeper: Service information not set")
  else
    match json_Marshal (registrationReq k) with
    | Err err => ret (Some ("failed to encode registration request: " +:+ err))
    | Ok jsonEncodedData =>
        (* check if the service registry exists first *)
        r <- liftIO (getRegistryByService
               (GetRegistryUrl (config k) +:+ ApiRegistrationByServiceIdRoute +:+ serviceKey k)) ;;
        match r with
        | Err err =>
            ret (Some ("failed to check the " +:+ serviceKey k +:+
                       " service registry status: " +:+ err))
        | Ok resp =>
            (* PUT to update the registry if the service already exists,
               otherwise POST to create it *)
            let httpMethod :=
              if StatusCode resp =? StatusOK then MethodPut else MethodPost in
            match http_NewRequest httpMethod (GetRegistryUrl (config k) +:+ ApiRegisterRoute)
                    (Some jsonEncodedData) with
            | Err err => ret (Some ("failed to create register request: " +:+ err))
            | Ok req =>
                let req := Header_Set req ContentType ContentTypeJSON in
                r <- liftIO (client_Do req) ;;
                match r with
                | Err err => ret (Some ("http error: " +:+ err))
                | Ok resp =>
                    if negb (StatusCode resp =? StatusCreated) &&
                       negb (StatusCode resp =? StatusNoContent)
                    then
                      match Body resp with
                      | Err err => ret (Some ("failed to read response body: " +:+ err))
                      | Ok bodyBytes =>
                          match json_Unmarshal_BaseResponse bodyBytes with
                          | Err err =>
                              ret (Some ("failed to decode response body: " +:+ err))
                          | Ok response =>
                              ret (Some ("failed to register " +:+ serviceKey k +:+ ": "
                                         +:+ Message response))
                          end
                      end
                    else ret None
                end
            end
        end
    end.

Definition Unregister : Meth (option error) :=
  k <- this ;;
  match http_NewRequest MethodDelete
          (GetRegistryUrl (config k) +:+ ApiRegistrationByServiceIdRoute +:+ serviceKey k)
          None with
  | Err err => ret (Some ("failed to create unregister request: " +:+ err))
  | Ok req =>
      r <- liftIO (client_Do req) ;;
      match r with
      | Err err => ret (Some ("http error: " +:+ err))
      | Ok resp =>
          if negb (StatusCode resp =? StatusNoContent) then
            match Body resp with
            | Err err => ret (Some ("failed to read response body: " +:+ err))
            | Ok bodyBytes =>
                match json_Unmarshal_BaseResponse bodyBytes with
                | Err err => ret (Some ("failed to decode response body: " +:+ err))
                | Ok response =>
                    ret (Some ("failed to unregister " +:+ serviceKey k +:+ ": "
                               +:+ Message response))
                end
            end
          else ret None
      end
  end.

(** keeper combines service discovery and health check into one single
    register request. *)
Definition RegisterCheck (id name notes url interval : string) : Meth (option error) :=
  ret None.

Definition IsAlive : Meth bool :=
  k <- this ;;
  r <- liftIO (client_Get (keeperUrl k +:+ ApiPingRoute)) ;;
  match r with
  | Err _ => ret false
  | Ok resp =>
      if (StatusOK <=? StatusCode resp) && (StatusCode resp <? StatusMultipleChoices)
      then ret true
      else ret false
  end.

Definition GetServiceEndpoint (serviceKey : string)
  : Meth (ServiceEndpoint.t * option error) :=
  k <- this ;;
  match http_NewRequest MethodGet
          (GetRegistryUrl (config k) +:+ ApiRegistrationByServiceIdRoute +:+ serviceKey)
          None with
  | Err err =>
      ret (ServiceEndpoint.zero, Some ("failed to create http request: " +:+ err))
  | Ok req =>
      r <- liftIO (client_Do req) ;;
      match r with
      | Err err => ret (ServiceEndpoint.zero, Some ("http error: " +:+ err))
      | Ok resp =>
          match Body resp with
          | Err err =>
              ret (ServiceEndpoint.zero, Some ("failed to read response body: " +:+ err))
          | Ok bodyBytes =>
              if negb (StatusCode resp =? StatusOK) then
                match json_Unmarshal_BaseResponse bodyBytes with
                | Err err =>
                    ret (ServiceEndpoint.zero,
                         Some ("failed to decode response body: " +:+ err))
                | Ok response =>
                    ret (ServiceEndpoint.zero,
                         Some ("failed to get service endpoint: " +:+ Message response))
                end
              else
                match json_Unmarshal_RegistrationResponse bodyBytes with
                | Err err =>
                    ret (ServiceEndpoint.zero,
                         Some ("failed to decode response body: " +:+ err))
                | Ok r =>
                    let endpoint :=
                      {| ServiceEndpoint.ServiceId := serviceKey;
                         ServiceEndpoint.Host := RegistrationDTO.Host (Registration r);
                         ServiceEndpoint.Port := RegistrationDTO.Port (Registration r) |} in
                    ret (endpoint, None)
                end
          end
      end
  end.

(** The body of [for idx, r := range responseDTO.Registrations], entered
    at index [idx] with the records still to visit. *)
Fixpoint range_Registrations (idx : nat) (rs : list RegistrationDTO.t)
    (endpoints : list ServiceEndpoint.t) : list ServiceEndpoint.t :=
  match rs with
  | [] => endpoints
  | r :: rs' =>
      let endpoint :=
        {| ServiceEndpoint.ServiceId := RegistrationDTO.ServiceId r;
           ServiceEndpoint.Host := RegistrationDTO.Host r;
           ServiceEndpoint.Port := RegistrationDTO.Port r |} in
      range_Registrations (S idx) rs' (<[idx := endpoint]> endpoints)
  end.

(** A [nil] slice and an empty one are both [[]]. *)
Definition GetAllServiceEndpoints : Meth (list ServiceEndpoint.t * option error) :=
  k <- this ;;
  match http_NewRequest MethodGet (GetRegistryUrl (config k) +:+ ApiAllRegistrationRoute)
          None with
  | Err err => ret ([], Some ("failed to create http request: " +:+ err))
  | Ok req =>
      r <- liftIO (client_Do req) ;;
      match r with
      | Err err => ret ([], Some ("http error: " +:+ err))
      | Ok resp =>
          match Body resp with
          | Err err => ret ([], Some ("failed to read response body: " +:+ err))
          | Ok bodyBytes =>
              if negb (StatusCode resp =? StatusOK) then
                match json_Unmarshal_BaseResponse bodyBytes with
                | Err err => ret ([], Some ("failed to decode response body: " +:+ err))
                | Ok response =>
                    ret ([], Some ("failed to get all service endpoints: "
                                   +:+ Message response))
                end
              else
                match json_Unmarshal_MultiRegistrationsResponse bodyBytes with
                | Err err => ret ([], Some ("failed to decode response body: " +:+ err))
                | Ok responseDTO =>
                    let endpoints :=
                      replicate (length (Registrations responseDTO)) ServiceEndpoint.zero in
                    let endpoints :=
                      range_Registrations 0%nat (Registrations responseDTO) endpoints in
                    ret (endpoints, None)
                end
          end
      end
  end.

Definition IsServiceAvailable (serviceKey : string) : Meth (bool * option error) :=
  k <- this ;;
  r <- liftIO (getRegistryByService
         (GetRegistryUrl (config k) +:+ ApiRegistrationByServiceIdRoute +:+ serviceKey)) ;;
  match r with
  | Err err =>
      ret (false, Some ("failed to get " +:+ serviceKey +:+ " service registry: " +:+ err))
  | Ok resp =>
      match Body resp with
      | Err err => ret (false, Some ("failed to read response body: " +:+ err))
      | Ok bodyBytes =>
          if StatusCode resp =? StatusOK then
            match json_Unmarshal_RegistrationResponse bodyBytes with
            | Err err => ret (false, Some ("failed to decode response body: " +:+ err))
            | Ok response =>
                if negb (EqualFold (RegistrationDTO.Status (Registration response)) "up")
                then ret (false, Some (" " +:+ serviceKey +:+ " service not healthy..."))
                else ret (true, None)
            end
          else if StatusCode resp =? StatusNotFound then
            ret (false, Some (serviceKey +:+
                              " service is not registered. Might not have started... "))
          else
            match json_Unmarshal_BaseResponse bodyBytes with
            | Err err => ret (false, Some ("failed to decode response body: " +:+ err))
            | Ok response =>
                ret (false, Some ("failed to check service availability: "
                                  +:+ Message response))
            end
      end
  end.

End Client.

(** ** Expected shapes, used to state the properties *)
Section Shapes.
Context `{rt : Runtime}.

(** The five fields [Register] insists on. *)
Definition registration_data_set (k : keeperClient) : Prop :=
  serviceKey k <> "" /\ serviceHost k <> "" /\ servicePort k <> 0 /\
  healthCheckRoute k <> "" /\ healthCheckInterval k <> "".

(** Address of the record of one service. *)
Definition registration_url (k : keeperClient) (key : string) : string :=
  GetRegistryUrl (config k) +:+ ApiRegistrationByServiceIdRoute +:+ key.

(** A body-less request as [http.NewRequest] leaves it. *)
Definition plain_request (method : Method) (url : string) : Request :=
  {| req_Method := method; req_URL := url; req_Header := []; req_Body := None |}.

(** The create or update request of [Register]. *)
Definition register_request (k : keeperClient) (method : Method) (data : string)
  : Request :=
  {| req_Method := method;
     req_URL := GetRegistryUrl (config k) +:+ ApiRegisterRoute;
     req_Header := [(ContentType, ContentTypeJSON)];
     req_Body := Some data |}.

(** The liveness probe of [IsAlive]. *)
Definition ping_request (k : keeperClient) : Request :=
  plain_request MethodGet (keeperUrl k +:+ ApiPingRoute).

(** The delete request of [Unregister]. *)
Definition unregister_request (k : keeperClient) : Request :=
  plain_request MethodDelete (registration_url k (serviceKey k)).

(** The fetch of one record, as sent by the probe of [Register], by
    [GetServiceEndpoint] and by [IsServiceAvailable]. *)
Definition fetch_request (k : keeperClient) (key : string) : Request :=
  plain_request MethodGet (registration_url k key).

(** The fetch of all records. *)
Definition fetch_all_request (k : keeperClient) : Request :=
  plain_request MethodGet (GetRegistryUrl (config k) +:+ ApiAllRegistrationRoute).

(** What the client makes of the body of a refused request: [describe]
    turns the message of the envelope into the error of the operation. *)
Definition envelope_error (describe : string -> error) (resp : Response) : error :=
  match Body resp with
  | Err err => "failed to read response body: " +:+ err
  | Ok bodyBytes =>
      match json_Unmarshal_BaseResponse bodyBytes with
      | Err err => "failed to decode response body: " +:+ err
      | Ok response => describe (Message response)
      end
  end.

(** Projection of a registration record to an endpoint. *)
Definition endpoint_of (r : RegistrationDTO.t) : ServiceEndpoint.t :=
  {| ServiceEndpoint.ServiceId := RegistrationDTO.ServiceId r;
     ServiceEndpoint.Host := RegistrationDTO.Host r;
     ServiceEndpoint.Port := RegistrationDTO.Port r |}.

(** Full self-registration data: host, port, route and interval are all
    present in the configuration. *)
Definition full_registration_data (cfg : Config.t) : Prop :=
  Config.ServiceHost cfg <> "" /\ Config.ServicePort cfg <> 0 /\
  Config.CheckRoute cfg <> "" /\ Config.CheckInterval cfg <> "".

(** The construction contract in the words of the specification: the
    key and the base URL are always stored; host, port, route and interval
    are stored exactly when all four are present, and are zero otherwise. *)
Definition stores_exactly_when_full (cfg : Config.t) : Prop :=
  exists c : keeperClient,
    NewKeeperClient cfg = Ret (c, None) /\
    serviceKey c = Config.ServiceKey cfg /\
    keeperUrl c = GetRegistryUrl cfg /\
    (full_registration_data cfg ->
       serviceHost c = Config.ServiceHost cfg /\
       servicePort c = Config.ServicePort cfg /\
       healthCheckRoute c = Config.CheckRoute cfg /\
       healthCheckInterval c = Config.CheckInterval cfg) /\
    (~ full_registration_data cfg ->
       serviceHost c = "" /\ servicePort c = 0 /\
       healthCheckRoute c = "" /\ healthCheckInterval c = "").

(** A method that never writes its receiver, whatever the registry does. *)
Definition keeps_receiver {A : Type} (m : Meth A) : Prop :=
  forall (net : Network) (sent : list Request) (k : keeperClient),
    snd (fst (run net sent (m k))) = k.
End Shapes.

(** ** A concrete runtime and registry doubles, for running the client *)
Module Sample.

Definition dq : string := String (ascii_of_N 34) EmptyString.
Definition jstr (s : string) : string := dq +:+ s +:+ dq.

(** Text following the first occurrence of [pat]. *)
Definition after (pat body : string) : option string :=
  match index 0 pat body with
  | Some i => Some (substring (i + String.length pat) (String.length body) body)
  | None => None
  end.

(** Value of a string member; absent members decode to the zero value. *)
Definition string_field (key body : string) : string :=
  match after (jstr key +:+ ":" +:+ dq) body with
  | Some rest =>
      match index 0 dq rest with
      | Some j => substring 0 j rest
      | None => ""
      end
  | None => ""
  end.

Fixpoint digits (s : string) (acc : Z) : Z :=
  match s with
  | String c s' =>
      let n := Z.of_N (N_of_ascii c) in
      if (48 <=? n) && (n <=? 57) then digits s' (10 * acc + (n - 48)) else acc
  | EmptyString => acc
  end.

Definition int_field (key body : string) : Z :=
  match after (jstr key +:+ ":") body with
  | Some rest => digits rest 0
  | None => 0
  end.

Definition decode {A : Type} (body : string) (a : A) : Result A :=
  if String.eqb body "" then Err "unexpected end of JSON input"
  else if String.prefix "{" body then Ok a
  else Err "invalid character looking for beginning of value".

Definition registration_of (text : string) : RegistrationDTO.t :=
  {| RegistrationDTO.ServiceId := string_field "serviceId" text;
     RegistrationDTO.Host := string_field "host" text;
     RegistrationDTO.Port := int_field "port" text;
     RegistrationDTO.HealthCheck :=
       {| HealthCheck.Interval := string_field "interval" text;
          HealthCheck.Path := string_field "path" text;
          HealthCheck.Type_ := string_field "type" text |};
     RegistrationDTO.Status := string_field "status" text |}.

(** One piece of text per record of a list body. *)
Fixpoint records (fuel : nat) (body : string) : list string :=
  match fuel with
  | O => []
  | S fuel' =>
      match after (jstr "serviceId") body with
      | None => []
      | Some rest =>
          let own :=
            match index 0 (jstr "serviceId") rest with
            | Some j => substring 0 j rest
            | None => rest
            end in
          (jstr "serviceId" +:+ own) :: records fuel' rest
      end
  end.

Definition encode (r : AddRegistrationRequest) : string :=
  let reg := AddRegistrationRequest_Registration r in
  let hc := RegistrationDTO.HealthCheck reg in
  "{" +:+ jstr "apiVersion" +:+ ":"
      +:+ jstr (apiVersion (BaseRequest_Versionable (AddRegistrationRequest_BaseRequest r)))
  +:+ "," +:+ jstr "registration" +:+ ":{"
      +:+ jstr "serviceId" +:+ ":" +:+ jstr (RegistrationDTO.ServiceId reg)
      +:+ "," +:+ jstr "host" +:+ ":" +:+ jstr (RegistrationDTO.Host reg)
      +:+ "," +:+ jstr "port" +:+ ":" +:+ pretty (RegistrationDTO.Port reg)
      +:+ "," +:+ jstr "healthCheck" +:+ ":{"
          +:+ jstr "interval" +:+ ":" +:+ jstr (HealthCheck.Interval hc)
          +:+ "," +:+ jstr "path" +:+ ":" +:+ jstr (HealthCheck.Path hc)
          +:+ "," +:+ jstr "type" +:+ ":" +:+ jstr (HealthCheck.Type_ hc)
      +:+ "}}}".

Definition has_control_byte (s : string) : bool :=
  existsb (fun c => (N_of_ascii c <? 32)%N || (N_of_ascii c =? 127)%N)
          (list_ascii_of_string s).

#[export] Instance rt : Runtime :=
  {| ApiVersion := "v3";
     ApiRegisterRoute := "/api/v3/registry";
     ApiRegistrationByServiceIdRoute := "/api/v3/registry/serviceId/";
     ApiAllRegistrationRoute := "/api/v3/registry/all";
     ApiPingRoute := "/api/v3/ping";
     ContentType := "Content-Type";
     ContentTypeJSON := "application/json";
     GetRegistryUrl := fun cfg =>
       (if String.eqb (Config.Protocol cfg) "" then "http" else Config.Protocol cfg)
       +:+ "://" +:+ Config.Host cfg +:+ ":" +:+ pretty (Config.Port cfg);
     url_Parse := fun url =>
       if has_control_byte url then Some "net/url: invalid control character in URL"
       else None;
     json_Marshal := fun r => Ok (encode r);
     json_Unmarshal_BaseResponse := fun body =>
       decode body {| Message := string_field "message" body |};
     json_Unmarshal_RegistrationResponse := fun body =>
       decode body {| Registration := registration_of body |};
     json_Unmarshal_MultiRegistrationsResponse := fun body =>
       decode body
         {| Registrations := map registration_of (records (String.length body) body) |};
     EqualFold_hasUnicode := fun _ _ => false |}.

(** A service that registers itself. *)
Definition cfg : Config.t :=
  {| Config.Protocol := "http"; Config.Host := "localhost"; Config.Port := 59890;
     Config.ServiceKey := "core-data"; Config.ServiceHost := "10.0.0.7";
     Config.ServicePort := 59880; Config.CheckRoute := "/api/v3/ping";
     Config.CheckInterval := "10s" |}.

(** A caller that only looks services up. *)
Definition lookup_cfg : Config.t :=
  {| Config.Protocol := ""; Config.Host := "localhost"; Config.Port := 59890;
     Config.ServiceKey := "app-rules"; Config.ServiceHost := "";
     Config.ServicePort := 0; Config.CheckRoute := ""; Config.CheckInterval := "" |}.

(** A host and a port, but no health-check route. *)
Definition partial_cfg : Config.t :=
  {| Config.Protocol := "http"; Config.Host := "localhost"; Config.Port := 59890;
     Config.ServiceKey := "core-data"; Config.ServiceHost := "10.0.0.7";
     Config.ServicePort := 59880; Config.CheckRoute := "";
     Config.CheckInterval := "10s" |}.

Definition offline_answer : Result Response := Err "dial tcp: connection refused".

Definition offline : Network := fun _ _ => offline_answer.

Definition client_of (c : Config.t) : keeperClient :=
  fst (fst (run offline [] (NewKeeperClient c))).

Definition k : keeperClient := client_of cfg.
Definition lookup_k : keeperClient := client_of lookup_cfg.

Definition envelope (message : string) : string :=
  "{" +:+ jstr "apiVersion" +:+ ":" +:+ jstr "v3" +:+ ","
      +:+ jstr "message" +:+ ":" +:+ jstr message +:+ "}".

Definition record (id host : string) (port : Z) (status : string) : string :=
  "{" +:+ jstr "serviceId" +:+ ":" +:+ jstr id
      +:+ "," +:+ jstr "host" +:+ ":" +:+ jstr host
      +:+ "," +:+ jstr "port" +:+ ":" +:+ pretty port
      +:+ "," +:+ jstr "status" +:+ ":" +:+ jstr status +:+ "}".

Definition one (r : string) : string := "{" +:+ jstr "registration" +:+ ":" +:+ r +:+ "}".

Definition many (rs : list string) : string :=
  "{" +:+ jstr "registrations" +:+ ":[" +:+ String.concat "," rs +:+ "]}".

Definition answer (status : Z) (body : string) : Result Response :=
  Ok {| StatusCode := status; Body := Ok body |}.

(** A registry that answers every GET with one response and every other
    request with another. *)
Definition registry (get other : Result Response) : Network :=
  fun _ req =>
    match req_Method req with
    | MethodGet => get
    | _ => other
    end.
End Sample.

(** ** The null authentication injector *)

(** [emptyAuthenticationInjector] has no field. *)
Inductive emptyAuthenticationInjector : Type := EmptyAuthenticationInjector.

(** A transport decorator, [http.RoundTripper]. *)
Definition RoundTripper_t : Type := Request -> IO (Result Response).

(** NewNullAuthenticationInjector creates an instance of
    AuthenticationInjector. *)
Definition NewNullAuthenticationInjector : emptyAuthenticationInjector :=
  EmptyAuthenticationInjector.

(** Do nothing to the request; used for unit tests.  The request is passed
    by pointer, so the request after the call is part of the outcome. *)
Definition AddAuthenticationData (a : emptyAuthenticationInjector) (req : Request)
  : Request * option error :=
  (req, None).

(** The [nil] round tripper is [None]. *)
Definition RoundTripper (a : emptyAuthenticationInjector) : option RoundTripper_t :=
  None.

(** ** Further shapes *)

(** A request that cannot change the registry: a GET as [http.NewRequest]
    builds it, without body or header. *)
Definition read_only (req : Request) : Prop :=
  req_Method req = MethodGet /\ req_Body req = None /\ req_Header req = [].

(** What a lookup may have handed to the HTTP client: at most one request,
    and a read-only one. *)
Definition single_read (t : list Request) : Prop :=
  (length t <= 1)%nat /\ forall req : Request, In req t -> read_only req.

(** A configuration that carries all five fields of a registration. *)
Definition complete_configuration (cfg : Config.t) : Prop :=
  Config.ServiceKey cfg <> "" /\ Config.ServiceHost cfg <> "" /\
  Config.ServicePort cfg <> 0 /\ Config.CheckRoute cfg <> "" /\
  Config.CheckInterval cfg <> "".

(** Equal to [up] up to the case of its letters. *)
Definition is_up (s : string) : Prop :=
  s = "up" \/ s = "Up" \/ s = "uP" \/ s = "UP".

(** What Unicode simple folding says of the letters u and p: no rune
    outside ASCII folds to either, so the rune loop of [strings.EqualFold]
    rejects a string that starts with a non-ASCII byte against [up] and
    against [p]. *)
Definition rune_loop_rejects_up `{rt : Runtime} : Prop :=
  forall (c : ascii) (s t : string),
    (128 <= byte_of c)%N -> t = "up" \/ t = "p" ->
    EqualFold_hasUnicode (String c s) t = false.

(** The availability contract in the words of the specification, for a
    fetch that could be sent: (true, nil) exactly on 200 with a record whose
    status is [up] in any case; 200 with another status is not healthy; 404
    is not registered; any other status carries the message of the decoded
    envelope; [true] never comes with an error. *)
Definition availability_as_claimed `{rt : Runtime}
    (net : Network) (k : keeperClient) (key : string) : Prop :=
  url_Parse (registration_url k key) = None ->
  (result (call net (IsServiceAvailable key) k) = (true, None) <->
     exists (resp : Response) (body : string) (r : RegistrationResponse),
       net [] (fetch_request k key) = Ok resp /\
       StatusCode resp = 200 /\
       Body resp = Ok body /\
       json_Unmarshal_RegistrationResponse body = Ok r /\
       is_up (RegistrationDTO.Status (Registration r))) /\
  (forall (resp : Response) (body : string) (r : RegistrationResponse),
     net [] (fetch_request k key) = Ok resp ->
     StatusCode resp = 200 ->
     Body resp = Ok body ->
     json_Unmarshal_RegistrationResponse body = Ok r ->
     ~ is_up (RegistrationDTO.Status (Registration r)) ->
     result (call net (IsServiceAvailable key) k)
     = (false, Some (" " +:+ key +:+ " service not healthy..."))) /\
  (forall resp : Response,
     net [] (fetch_request k key) = Ok resp ->
     StatusCode resp = 404 ->
     result (call net (IsServiceAvailable key) k)
     = (false, Some (key +:+ " service is not registered. Might not have started... "))) /\
  (forall (resp : Response) (body : string) (env : BaseResponse),
     net [] (fetch_request k key) = Ok resp ->
     StatusCode resp <> 200 -> StatusCode resp <> 404 ->
     Body resp = Ok body ->
     json_Unmarshal_BaseResponse body = Ok env ->
     result (call net (IsServiceAvailable key) k)
     = (false, Some ("failed to check service availability: " +:+ Message env))) /\
  (fst (result (call net (IsServiceAvailable key) k)) = true ->
   snd (result (call net (IsServiceAvailable key) k)) = None).

(** A registry whose every answer is the given status with a body that
    breaks off while it is read. *)
Definition truncated (status : Z) (err : error) : Network :=
  fun _ _ => Ok {| StatusCode := status; Body := Err err |}.


(** * Properties *)

(** ** Running a computation *)

Lemma run_bind {A B : Type} (net : Network) (m : IO A) (f : A -> IO B)
    (sent : list Request) :
  run net sent (io_bind m f)
  = run net (snd (run net sent m)) (f (fst (run net sent m))).
Proof.
  revert sent.
  induction m as [a | req k IH]; intros sent; simpl.
  - reflexivity.
  - apply IH.
Qed.

(** The guard of [Register], read as a proposition. *)
Lemma Register_guard_true (k : keeperClient) :
  serviceKey k = "" \/ serviceHost k = "" \/ servicePort k = 0 \/
  healthCheckRoute k = "" \/ healthCheckInterval k = "" ->
  String.eqb (serviceKey k) "" || String.eqb (serviceHost k) "" ||
  (servicePort k =? 0) ||
  String.eqb (healthCheckRoute k) "" || String.eqb (healthCheckInterval k) "" = true.
Proof.
  intros [H | [H | [H | [H | H]]]]; rewrite H; simpl;
    rewrite ?orb_true_r; reflexivity.
Qed.

Lemma Register_guard_false (k : keeperClient) :
  registration_data_set k ->
  String.eqb (serviceKey k) "" || String.eqb (serviceHost k) "" ||
  (servicePort k =? 0) ||
  String.eqb (healthCheckRoute k) "" || String.eqb (healthCheckInterval k) "" = false.
Proof.
  intros (Hk & Hh & Hp & Hr & Hi).
  apply String.eqb_neq in Hk, Hh, Hr, Hi.
  apply Z.eqb_neq in Hp.
  rewrite Hk, Hh, Hp, Hr, Hi. reflexivity.
Qed.

Lemma Register_guard_fires `{rt : Runtime} (k : keeperClient) :
  serviceKey k = "" \/ serviceHost k = "" \/ servicePort k = 0 \/
  healthCheckRoute k = "" \/ healthCheckInterval k = "" ->
  Register k
  = Ret (Some "unable to register service with keeper: Service information not set", k).
Proof.
  intros H. apply Register_guard_true in H.
  unfold Register. cbn. rewrite H. reflexivity.
Qed.

(** C1. A client that lacks the service key, the host, the port, the
    health-check route or the interval gets the configuration error from
    [Register] at once: the computation is a leaf of the call tree, so no
    request is built or sent, whatever the runtime and the registry are. *)
Theorem Register_missing_data_fails_offline `{rt : Runtime} (k : keeperClient) :
  serviceKey k = "" \/ serviceHost k = "" \/ servicePort k = 0 \/
  healthCheckRoute k = "" \/ healthCheckInterval k = "" ->
  Register k
  = Ret (Some "unable to register service with keeper: Service information not set", k)
  /\ forall net : Network,
       result (call net Register k)
       = Some "unable to register service with keeper: Service information not set"
       /\ trace (call net Register k) = [].
Proof.
  intros H. pose proof (Register_guard_fires k H) as E.
  split; [exact E |].
  intros net. unfold call. rewrite E. split; reflexivity.
Qed.

Lemma Register_missing_data_fails_offline_witness :
  serviceHost Sample.lookup_k = ""
  /\ result (call Sample.offline (Register (rt := Sample.rt)) Sample.lookup_k)
     = Some "unable to register service with keeper: Service information not set"
  /\ trace (call Sample.offline (Register (rt := Sample.rt)) Sample.lookup_k) = [].
Proof.
  split; [reflexivity |].
  apply (Register_missing_data_fails_offline (rt := Sample.rt) Sample.lookup_k).
  right; left; reflexivity.
Defined.

(** C8, as the specification words it, fails: a configuration with a host
    and a port but no health-check route is not full, yet the client keeps
    the host. *)
Lemma NewKeeperClient_partial_data_is_stored :
  ~ stores_exactly_when_full (rt := Sample.rt) Sample.partial_cfg.
Proof.
  intros (c & E & _ & _ & _ & Hzero).
  injection E as <-.
  destruct Hzero as [Hhost _].
  - intros (_ & _ & Hroute & _). apply Hroute. reflexivity.
  - discriminate Hhost.
Qed.

(** C8, amended. Construction is a leaf of the call tree and returns a
    client with a nil error; the client keeps the configuration, the service
    key and the derived registry URL, and keeps host, port, health-check
    route and interval exactly when the configured service host is not
    empty; otherwise the four stay at their zero values. *)
Theorem NewKeeperClient_stores_when_host_set `{rt : Runtime} (cfg : Config.t) :
  exists c : keeperClient,
    NewKeeperClient cfg = Ret (c, None) /\
    config c = cfg /\
    serviceKey c = Config.ServiceKey cfg /\
    keeperUrl c = GetRegistryUrl cfg /\
    (Config.ServiceHost cfg <> "" ->
       serviceHost c = Config.ServiceHost cfg /\
       servicePort c = Config.ServicePort cfg /\
       healthCheckRoute c = Config.CheckRoute cfg /\
       healthCheckInterval c = Config.CheckInterval cfg) /\
    (Config.ServiceHost cfg = "" ->
       serviceHost c = "" /\ servicePort c = 0 /\
       healthCheckRoute c = "" /\ healthCheckInterval c = "").
Proof.
  unfold NewKeeperClient.
  destruct (String.eqb_spec (Config.ServiceHost cfg) "") as [He | Hne]; simpl;
    eexists; (split; [reflexivity |]); simpl;
    (split; [reflexivity |]); (split; [reflexivity |]); (split; [reflexivity |]);
    (split; intros Hhost; [try contradiction | try contradiction]);
    repeat split; reflexivity.
Qed.

Lemma NewKeeperClient_stores_when_host_set_witness :
  exists c : keeperClient,
    NewKeeperClient (rt := Sample.rt) Sample.partial_cfg = Ret (c, None) /\
    serviceHost c = "10.0.0.7" /\ servicePort c = 59880 /\
    healthCheckRoute c = "" /\ healthCheckInterval c = "10s".
Proof.
  destruct (NewKeeperClient_stores_when_host_set (rt := Sample.rt) Sample.partial_cfg)
    as (c & Hnew & _ & _ & _ & Hstored & _).
  exists c. split; [exact Hnew |].
  apply Hstored. discriminate.
Defined.

(** ** Liveness *)

Lemma IsAlive_result `{rt : Runtime} (net : Network) (k : keeperClient) :
  result (call net IsAlive k)
  = match url_Parse (keeperUrl k +:+ ApiPingRoute) with
    | Some _ => false
    | None =>
        match net [] (ping_request k) with
        | Err _ => false
        | Ok resp => (200 <=? StatusCode resp) && (StatusCode resp <? 300)
        end
    end.
Proof.
  unfold call, result, IsAlive, client_Get, http_NewRequest, ping_request, plain_request.
  cbn.
  destruct (url_Parse (keeperUrl k +:+ ApiPingRoute)); cbn; [reflexivity |].
  destruct (net [] _) as [resp | terr]; cbn; [| reflexivity].
  unfold StatusOK, StatusMultipleChoices.
  destruct ((200 <=? StatusCode resp) && (StatusCode resp <? 300)); reflexivity.
Qed.

Lemma in_2xx_iff (s : Z) :
  (200 <=? s) && (s <? 300) = true <-> 200 <= s < 300.
Proof.
  rewrite andb_true_iff, Z.leb_le, Z.ltb_lt. reflexivity.
Qed.

(** C5. [IsAlive] answers [true] exactly when the ping was sent and answered
    with a status in [200, 300); a status outside that range, a transport
    error and a ping URL that does not parse all give [false].  The result
    is a [bool]: there is no error value to return. *)
Theorem IsAlive_true_iff_2xx `{rt : Runtime} (net : Network) (k : keeperClient) :
  (result (call net IsAlive k) = true <->
     exists resp : Response,
       url_Parse (keeperUrl k +:+ ApiPingRoute) = None /\
       net [] (ping_request k) = Ok resp /\
       200 <= StatusCode resp < 300) /\
  (forall resp : Response,
     net [] (ping_request k) = Ok resp ->
     ~ (200 <= StatusCode resp < 300) ->
     result (call net IsAlive k) = false) /\
  (forall err : error,
     net [] (ping_request k) = Err err ->
     result (call net IsAlive k) = false) /\
  (forall err : error,
     url_Parse (keeperUrl k +:+ ApiPingRoute) = Some err ->
     result (call net IsAlive k) = false).
Proof.
  rewrite IsAlive_result.
  split; [| split; [| split]].
  - split.
    + destruct (url_Parse _); [discriminate |].
      destruct (net [] _) as [resp | terr]; [| discriminate].
      intros H. apply in_2xx_iff in H.
      exists resp. split; [reflexivity |]. split; [reflexivity | exact H].
    + intros (resp & Hurl & Hnet & Hs).
      rewrite Hurl, Hnet. apply in_2xx_iff. exact Hs.
  - intros resp Hnet Hs. rewrite Hnet.
    destruct (url_Parse _); [reflexivity |].
    apply not_true_is_false. intros H. apply Hs. apply in_2xx_iff. exact H.
  - intros err Hnet. rewrite Hnet. destruct (url_Parse _); reflexivity.
  - intros err Hurl. rewrite Hurl. reflexivity.
Qed.

Lemma IsAlive_true_iff_2xx_witness :
  result (call (Sample.registry (Sample.answer 204 "") Sample.offline_answer)
            (IsAlive (rt := Sample.rt)) Sample.k) = true
  /\ result (call (Sample.registry (Sample.answer 503 "") Sample.offline_answer)
            (IsAlive (rt := Sample.rt)) Sample.k) = false
  /\ result (call Sample.offline (IsAlive (rt := Sample.rt)) Sample.k) = false.
Proof.
  split; [| split].
  - apply (proj1 (IsAlive_true_iff_2xx (rt := Sample.rt) _ _)).
    eexists. split; [reflexivity |]. split; [reflexivity |]. simpl. lia.
  - eapply (proj1 (proj2 (IsAlive_true_iff_2xx (rt := Sample.rt) _ _))); [reflexivity |].
    simpl. lia.
  - eapply (proj1 (proj2 (proj2 (IsAlive_true_iff_2xx (rt := Sample.rt) _ _)))).
    reflexivity.
Defined.

(** ** Unregistering *)

Lemma envelope_error_message `{rt : Runtime} (describe : string -> error)
    (resp : Response) (body : string) (env : BaseResponse) :
  Body resp = Ok body ->
  json_Unmarshal_BaseResponse body = Ok env ->
  envelope_error describe resp = describe (Message env).
Proof.
  intros Hbody Henv. unfold envelope_error. rewrite Hbody, Henv. reflexivity.
Qed.

Lemma Unregister_call `{rt : Runtime} (net : Network) (k : keeperClient) :
  call net Unregister k
  = match url_Parse (registration_url k (serviceKey k)) with
    | Some err => (Some ("failed to create unregister request: " +:+ err), k, [])
    | None =>
        (match net [] (unregister_request k) with
         | Err err => Some ("http error: " +:+ err)
         | Ok resp =>
             if StatusCode resp =? 204 then None
             else Some (envelope_error
                          (fun message =>
                             "failed to unregister " +:+ serviceKey k +:+ ": " +:+ message)
                          resp)
         end, k, [unregister_request k])
    end.
Proof.
  unfold call, Unregister, http_NewRequest, unregister_request, plain_request,
    registration_url, envelope_error.
  cbn.
  destruct (url_Parse _); cbn; [reflexivity |].
  destruct (net [] _) as [resp | terr]; cbn; [| reflexivity].
  unfold StatusNoContent.
  destruct (StatusCode resp =? 204); cbn; [reflexivity |].
  destruct (Body resp) as [body | rerr]; cbn; [| reflexivity].
  destruct (json_Unmarshal_BaseResponse body); reflexivity.
Qed.

(** C7. [Unregister] succeeds exactly when the delete request was sent and
    answered with 204; under any other status it fails, and when the body of
    that answer decodes as an error envelope the error carries the
    envelope's message. *)
Theorem Unregister_succeeds_iff_204 `{rt : Runtime} (net : Network) (k : keeperClient) :
  (result (call net Unregister k) = None <->
     exists resp : Response,
       url_Parse (registration_url k (serviceKey k)) = None /\
       net [] (unregister_request k) = Ok resp /\
       StatusCode resp = 204) /\
  (forall resp : Response,
     url_Parse (registration_url k (serviceKey k)) = None ->
     net [] (unregister_request k) = Ok resp ->
     StatusCode resp <> 204 ->
     (exists e : error, result (call net Unregister k) = Some e) /\
     forall (body : string) (env : BaseResponse),
       Body resp = Ok body ->
       json_Unmarshal_BaseResponse body = Ok env ->
       result (call net Unregister k)
       = Some ("failed to unregister " +:+ serviceKey k +:+ ": " +:+ Message env)).
Proof.
  rewrite Unregister_call. split.
  - split.
    + destruct (url_Parse _); [discriminate |].
      destruct (net [] _) as [resp | terr]; [| discriminate].
      unfold result; simpl.
      destruct (Z.eqb_spec (StatusCode resp) 204) as [Hs | Hs]; [| discriminate].
      intros _. exists resp. repeat split; assumption.
    + intros (resp & Hurl & Hnet & Hs).
      rewrite Hurl, Hnet, Hs. reflexivity.
  - intros resp Hurl Hnet Hs. rewrite Hurl, Hnet.
    apply Z.eqb_neq in Hs. rewrite Hs. unfold result; simpl. split.
    + eexists. reflexivity.
    + intros body env Hbody Henv.
      rewrite (envelope_error_message _ _ _ _ Hbody Henv). reflexivity.
Qed.

Lemma Unregister_succeeds_iff_204_witness :
  result (call (Sample.registry Sample.offline_answer (Sample.answer 204 ""))
            (Unregister (rt := Sample.rt)) Sample.k) = None
  /\ result (call (Sample.registry Sample.offline_answer
                     (Sample.answer 404 (Sample.envelope "no such service")))
               (Unregister (rt := Sample.rt)) Sample.k)
     = Some "failed to unregister core-data: no such service".
Proof.
  split.
  - apply (proj1 (Unregister_succeeds_iff_204 (rt := Sample.rt) _ _)).
    eexists. split; [reflexivity |]. split; reflexivity.
  - edestruct (proj2 (Unregister_succeeds_iff_204 (rt := Sample.rt)
                         (Sample.registry Sample.offline_answer
                            (Sample.answer 404 (Sample.envelope "no such service")))
                         Sample.k))
      as [_ Hmessage]; [reflexivity | reflexivity | simpl; lia |].
    apply (Hmessage (Sample.envelope "no such service")
                    {| Message := "no such service" |}); reflexivity.
Defined.

(** ** Registering *)

Lemma Register_call `{rt : Runtime} (net : Network) (k : keeperClient) :
  registration_data_set k ->
  call net Register k
  = match json_Marshal (registrationReq k) with
    | Err err => (Some ("failed to encode registration request: " +:+ err), k, [])
    | Ok data =>
        match url_Parse (registration_url k (serviceKey k)) with
        | Some err =>
            (Some ("failed to check the " +:+ serviceKey k +:+
                   " service registry status: " +:+
                   ("failed to create http request: " +:+ err)), k, [])
        | None =>
            match net [] (fetch_request k (serviceKey k)) with
            | Err err =>
                (Some ("failed to check the " +:+ serviceKey k +:+
                       " service registry status: " +:+ ("http error: " +:+ err)),
                 k, [fetch_request k (serviceKey k)])
            | Ok probe =>
                let method := if StatusCode probe =? 200 then MethodPut else MethodPost in
                match url_Parse (GetRegistryUrl (config k) +:+ ApiRegisterRoute) with
                | Some err =>
                    (Some ("failed to create register request: " +:+ err),
                     k, [fetch_request k (serviceKey k)])
                | None =>
                    (match net [fetch_request k (serviceKey k)]
                             (register_request k method data) with
                     | Err err => Some ("http error: " +:+ err)
                     | Ok resp =>
                         if (StatusCode resp =? 201) || (StatusCode resp =? 204) then None
                         else Some (envelope_error
                                      (fun message =>
                                         "failed to register " +:+ serviceKey k +:+ ": "
                                         +:+ message)
                                      resp)
                     end,
                     k,
                     [fetch_request k (serviceKey k); register_request k method data])
                end
            end
        end
    end.
Proof.
  intros Hset. apply Register_guard_false in Hset.
  unfold call, Register. cbn. rewrite Hset.
  destruct (json_Marshal (registrationReq k)) as [data | merr]; cbn; [| reflexivity].
  unfold getRegistryByService, http_NewRequest, fetch_request, plain_request,
    registration_url, register_request, envelope_error, Header_Set.
  cbn.
  destruct (url_Parse (GetRegistryUrl (config k) +:+ _ +:+ serviceKey k)); cbn;
    [reflexivity |].
  destruct (net [] _) as [probe | terr]; cbn; [| reflexivity].
  destruct (url_Parse (GetRegistryUrl (config k) +:+ ApiRegisterRoute)); cbn;
    [reflexivity |].
  unfold StatusOK, StatusCreated, StatusNoContent.
  destruct (net _ _) as [resp | terr]; cbn; [| reflexivity].
  destruct (StatusCode resp =? 201); cbn; [reflexivity |].
  destruct (StatusCode resp =? 204); cbn; [reflexivity |].
  destruct (Body resp) as [body | rerr]; cbn; [| reflexivity].
  destruct (json_Unmarshal_BaseResponse body); reflexivity.
Qed.

Lemma created_or_no_content (s : Z) :
  (s =? 201) || (s =? 204) = true <-> s = 201 \/ s = 204.
Proof.
  rewrite orb_true_iff, !Z.eqb_eq. reflexivity.
Qed.

(** C2. With the five registration fields set, the request body encoded
    and both URLs well formed, [Register] first fetches the record stored
    under its own service key; once that probe is answered it sends exactly
    one more request, a PUT when the probe status is 200 and a POST for any
    other probe status.  It succeeds exactly when that request is answered
    with 201 or 204; under any other status it fails, with the message of
    the error envelope in the error whenever the body decodes as one. *)
Theorem Register_put_when_found_else_post `{rt : Runtime}
    (net : Network) (k : keeperClient) (data : string) (probe : Response) :
  registration_data_set k ->
  json_Marshal (registrationReq k) = Ok data ->
  url_Parse (registration_url k (serviceKey k)) = None ->
  url_Parse (GetRegistryUrl (config k) +:+ ApiRegisterRoute) = None ->
  net [] (fetch_request k (serviceKey k)) = Ok probe ->
  exists method : Method,
    trace (call net Register k)
    = [fetch_request k (serviceKey k); register_request k method data] /\
    (StatusCode probe = 200 -> method = MethodPut) /\
    (StatusCode probe <> 200 -> method = MethodPost) /\
    (result (call net Register k) = None <->
       exists final : Response,
         net [fetch_request k (serviceKey k)] (register_request k method data) = Ok final /\
         (StatusCode final = 201 \/ StatusCode final = 204)) /\
    (forall final : Response,
       net [fetch_request k (serviceKey k)] (register_request k method data) = Ok final ->
       StatusCode final <> 201 -> StatusCode final <> 204 ->
       (exists e : error, result (call net Register k) = Some e) /\
       forall (body : string) (env : BaseResponse),
         Body final = Ok body ->
         json_Unmarshal_BaseResponse body = Ok env ->
         result (call net Register k)
         = Some ("failed to register " +:+ serviceKey k +:+ ": " +:+ Message env)).
Proof.
  intros Hset Hdata Hprobe_url Hreg_url Hprobe.
  rewrite (Register_call net k Hset), Hdata, Hprobe_url, Hprobe. cbv zeta.
  rewrite Hreg_url.
  exists (if StatusCode probe =? 200 then MethodPut else MethodPost).
  unfold trace, result; cbn [fst snd].
  split; [reflexivity |]. split; [| split; [| split]].
  - intros Hs. rewrite Hs. reflexivity.
  - intros Hs. apply Z.eqb_neq in Hs. rewrite Hs. reflexivity.
  - split.
    + destruct (net [fetch_request k (serviceKey k)] _) as [final | terr];
        [| discriminate].
      destruct ((StatusCode final =? 201) || (StatusCode final =? 204)) eqn:Hs;
        [| discriminate].
      intros _. exists final. split; [reflexivity |].
      apply created_or_no_content. exact Hs.
    + intros (final & Hfinal & Hs). rewrite Hfinal.
      apply created_or_no_content in Hs. rewrite Hs. reflexivity.
  - intros final Hfinal H201 H204. rewrite Hfinal.
    apply Z.eqb_neq in H201, H204. rewrite H201, H204. cbn [orb]. split.
    + eexists. reflexivity.
    + intros body env Hbody Henv.
      rewrite (envelope_error_message _ _ _ _ Hbody Henv). reflexivity.
Qed.

Lemma Register_put_when_found_else_post_witness :
  registration_data_set Sample.k
  /\ trace (call (Sample.registry
                    (Sample.answer 200
                       (Sample.one (Sample.record "core-data" "10.0.0.7" 59880 "UP")))
                    (Sample.answer 204 ""))
              (Register (rt := Sample.rt)) Sample.k)
     = [fetch_request (rt := Sample.rt) Sample.k "core-data";
        register_request (rt := Sample.rt) Sample.k MethodPut
          (Sample.encode (registrationReq (rt := Sample.rt) Sample.k))].
Proof.
  assert (Hset : registration_data_set Sample.k).
  { repeat split; intros H; vm_compute in H; discriminate H. }
  split; [exact Hset |].
  destruct (Register_put_when_found_else_post (rt := Sample.rt)
              (Sample.registry
                 (Sample.answer 200
                    (Sample.one (Sample.record "core-data" "10.0.0.7" 59880 "UP")))
                 (Sample.answer 204 ""))
              Sample.k
              (Sample.encode (registrationReq (rt := Sample.rt) Sample.k))
              {| StatusCode := 200;
                 Body := Ok (Sample.one (Sample.record "core-data" "10.0.0.7" 59880 "UP")) |}
              Hset eq_refl eq_refl eq_refl eq_refl)
    as (method & Htrace & Hput & _).
  rewrite Htrace, (Hput eq_refl). reflexivity.
Defined.

(** The requests [Register] can have sent when it returns. *)
Lemma Register_trace_cases `{rt : Runtime} (net : Network) (k : keeperClient) :
  registration_data_set k ->
  trace (call net Register k) = [] \/
  trace (call net Register k) = [fetch_request k (serviceKey k)] \/
  exists (method : Method) (data : string),
    json_Marshal (registrationReq k) = Ok data /\
    trace (call net Register k)
    = [fetch_request k (serviceKey k); register_request k method data].
Proof.
  intros Hset. rewrite (Register_call net k Hset).
  destruct (json_Marshal (registrationReq k)) as [data | merr]; [| left; reflexivity].
  destruct (url_Parse (registration_url k (serviceKey k))); [left; reflexivity |].
  destruct (net [] _) as [probe | terr]; [| right; left; reflexivity].
  cbv zeta.
  destruct (url_Parse (GetRegistryUrl (config k) +:+ ApiRegisterRoute));
    [right; left; reflexivity |].
  right; right. eexists; exists data. split; reflexivity.
Qed.

Lemma Register_write_body `{rt : Runtime} (net : Network) (k : keeperClient)
    (req : Request) :
  registration_data_set k ->
  In req (trace (call net Register k)) ->
  req_Method req = MethodPut \/ req_Method req = MethodPost ->
  exists data : string,
    json_Marshal (registrationReq k) = Ok data /\ req_Body req = Some data.
Proof.
  intros Hset Hin Hmethod.
  destruct (Register_trace_cases net k Hset)
    as [Ht | [Ht | (method & data & Hdata & Ht)]]; rewrite Ht in Hin.
  - destruct Hin.
  - destruct Hin as [<- | []]. destruct Hmethod as [H | H]; discriminate H.
  - destruct Hin as [<- | [<- | []]].
    + destruct Hmethod as [H | H]; discriminate H.
    + exists data. split; [exact Hdata | reflexivity].
Qed.

(** C10. With the registration fields set, [Register] encodes one record,
    built from the stored key, host, port, route and interval, the probe
    type [http] and the API version, before it probes: if the encoding
    fails nothing is sent, and every PUT or POST it sends, against any
    registry, carries exactly that encoding as its body.  So the body of an
    update and the body of a create are the same bytes. *)
Theorem Register_same_body_on_put_and_post `{rt : Runtime} (k : keeperClient) :
  registration_data_set k ->
  (forall (err : error) (net : Network),
     json_Marshal (registrationReq k) = Err err ->
     trace (call net Register k) = []) /\
  (forall (net : Network) (req : Request),
     In req (trace (call net Register k)) ->
     req_Method req = MethodPut \/ req_Method req = MethodPost ->
     exists data : string,
       json_Marshal
         {| AddRegistrationRequest_BaseRequest :=
              {| BaseRequest_Versionable := {| apiVersion := ApiVersion |} |};
            AddRegistrationRequest_Registration :=
              {| RegistrationDTO.ServiceId := serviceKey k;
                 RegistrationDTO.Host := serviceHost k;
                 RegistrationDTO.Port := servicePort k;
                 RegistrationDTO.HealthCheck :=
                   {| HealthCheck.Interval := healthCheckInterval k;
                      HealthCheck.Path := healthCheckRoute k;
                      HealthCheck.Type_ := "http" |};
                 RegistrationDTO.Status := "" |} |}
       = Ok data /\
       req_Body req = Some data) /\
  (forall (net_update net_create : Network) (put post : Request),
     In put (trace (call net_update Register k)) ->
     In post (trace (call net_create Register k)) ->
     req_Method put = MethodPut ->
     req_Method post = MethodPost ->
     req_Body put = req_Body post).
Proof.
  intros Hset. split; [| split].
  - intros err net Herr. rewrite (Register_call net k Hset), Herr. reflexivity.
  - intros net req Hin Hmethod.
    exact (Register_write_body net k req Hset Hin Hmethod).
  - intros net_update net_create put post Hput Hpost Hmput Hmpost.
    destruct (Register_write_body net_update k put Hset Hput (or_introl Hmput))
      as (d1 & Hd1 & ->).
    destruct (Register_write_body net_create k post Hset Hpost (or_intror Hmpost))
      as (d2 & Hd2 & ->).
    rewrite Hd1 in Hd2. injection Hd2 as <-. reflexivity.
Qed.

Lemma Register_same_body_on_put_and_post_witness :
  In (register_request (rt := Sample.rt) Sample.k MethodPut
        (Sample.encode (registrationReq (rt := Sample.rt) Sample.k)))
     (trace (call (Sample.registry (Sample.answer 200 "{}") (Sample.answer 204 ""))
               (Register (rt := Sample.rt)) Sample.k))
  /\ In (register_request (rt := Sample.rt) Sample.k MethodPost
           (Sample.encode (registrationReq (rt := Sample.rt) Sample.k)))
        (trace (call (Sample.registry (Sample.answer 404 "{}") (Sample.answer 201 ""))
                  (Register (rt := Sample.rt)) Sample.k))
  /\ req_Body (register_request (rt := Sample.rt) Sample.k MethodPut
                 (Sample.encode (registrationReq (rt := Sample.rt) Sample.k)))
     = req_Body (register_request (rt := Sample.rt) Sample.k MethodPost
                   (Sample.encode (registrationReq (rt := Sample.rt) Sample.k))).
Proof.
  assert (Hset : registration_data_set Sample.k).
  { repeat split; intros H; vm_compute in H; discriminate H. }
  assert (Hput : In (register_request (rt := Sample.rt) Sample.k MethodPut
                       (Sample.encode (registrationReq (rt := Sample.rt) Sample.k)))
                    (trace (call (Sample.registry (Sample.answer 200 "{}")
                                    (Sample.answer 204 ""))
                              (Register (rt := Sample.rt)) Sample.k))).
  { right; left; reflexivity. }
  assert (Hpost : In (register_request (rt := Sample.rt) Sample.k MethodPost
                        (Sample.encode (registrationReq (rt := Sample.rt) Sample.k)))
                     (trace (call (Sample.registry (Sample.answer 404 "{}")
                                     (Sample.answer 201 ""))
                               (Register (rt := Sample.rt)) Sample.k))).
  { right; left; reflexivity. }
  split; [exact Hput |]. split; [exact Hpost |].
  exact (proj2 (proj2 (Register_same_body_on_put_and_post (rt := Sample.rt) Sample.k Hset))
           _ _ _ _ Hput Hpost eq_refl eq_refl).
Defined.

(** ** Looking one service up *)

Lemma GetServiceEndpoint_call `{rt : Runtime} (net : Network) (k : keeperClient)
    (key : string) :
  call net (GetServiceEndpoint key) k
  = match url_Parse (registration_url k key) with
    | Some err =>
        ((ServiceEndpoint.zero, Some ("failed to create http request: " +:+ err)), k, [])
    | None =>
        (match net [] (fetch_request k key) with
         | Err err => (ServiceEndpoint.zero, Some ("http error: " +:+ err))
         | Ok resp =>
             match Body resp with
             | Err err =>
                 (ServiceEndpoint.zero, Some ("failed to read response body: " +:+ err))
             | Ok body =>
                 if StatusCode resp =? 200 then
                   match json_Unmarshal_RegistrationResponse body with
                   | Err err =>
                       (ServiceEndpoint.zero,
                        Some ("failed to decode response body: " +:+ err))
                   | Ok r =>
                       ({| ServiceEndpoint.ServiceId := key;
                           ServiceEndpoint.Host := RegistrationDTO.Host (Registration r);
                           ServiceEndpoint.Port := RegistrationDTO.Port (Registration r) |},
                        None)
                   end
                 else
                   match json_Unmarshal_BaseResponse body with
                   | Err err =>
                       (ServiceEndpoint.zero,
                        Some ("failed to decode response body: " +:+ err))
                   | Ok response =>
                       (ServiceEndpoint.zero,
                        Some ("failed to get service endpoint: " +:+ Message response))
                   end
             end
         end, k, [fetch_request k key])
    end.
Proof.
  unfold call, GetServiceEndpoint, http_NewRequest, fetch_request, plain_request,
    registration_url.
  cbn.
  destruct (url_Parse _); cbn; [reflexivity |].
  destruct (net [] _) as [resp | terr]; cbn; [| reflexivity].
  destruct (Body resp) as [body | rerr]; cbn; [| reflexivity].
  unfold StatusOK.
  destruct (StatusCode resp =? 200); cbn.
  - destruct (json_Unmarshal_RegistrationResponse body); reflexivity.
  - destruct (json_Unmarshal_BaseResponse body); reflexivity.
Qed.

(** Splits on whatever the goal still matches on. *)
Ltac split_outcome :=
  repeat match goal with
         | |- context [match ?x with _ => _ end] => destruct x eqn:?
         end.

(** C4. On a 200 answer whose body decodes, [GetServiceEndpoint key]
    returns the requested key with the host and port of the decoded record
    (the identifier inside the record is not consulted) and a nil error.  On
    a non-200 status, a transport failure or a decode failure it returns the
    zero endpoint and an error; and every call ends in one of these two
    ways. *)
Theorem GetServiceEndpoint_key_host_port `{rt : Runtime}
    (net : Network) (k : keeperClient) (key : string) :
  (forall (resp : Response) (body : string) (r : RegistrationResponse),
     url_Parse (registration_url k key) = None ->
     net [] (fetch_request k key) = Ok resp ->
     Body resp = Ok body ->
     StatusCode resp = 200 ->
     json_Unmarshal_RegistrationResponse body = Ok r ->
     result (call net (GetServiceEndpoint key) k)
     = ({| ServiceEndpoint.ServiceId := key;
           ServiceEndpoint.Host := RegistrationDTO.Host (Registration r);
           ServiceEndpoint.Port := RegistrationDTO.Port (Registration r) |}, None)) /\
  (forall resp : Response,
     net [] (fetch_request k key) = Ok resp ->
     StatusCode resp <> 200 ->
     exists e : error,
       result (call net (GetServiceEndpoint key) k) = (ServiceEndpoint.zero, Some e)) /\
  (forall err : error,
     net [] (fetch_request k key) = Err err ->
     exists e : error,
       result (call net (GetServiceEndpoint key) k) = (ServiceEndpoint.zero, Some e)) /\
  (forall (resp : Response) (body : string) (err : error),
     net [] (fetch_request k key) = Ok resp ->
     Body resp = Ok body ->
     StatusCode resp = 200 ->
     json_Unmarshal_RegistrationResponse body = Err err ->
     exists e : error,
       result (call net (GetServiceEndpoint key) k) = (ServiceEndpoint.zero, Some e)) /\
  ((exists (resp : Response) (body : string) (r : RegistrationResponse),
      net [] (fetch_request k key) = Ok resp /\
      Body resp = Ok body /\
      StatusCode resp = 200 /\
      json_Unmarshal_RegistrationResponse body = Ok r /\
      result (call net (GetServiceEndpoint key) k)
      = ({| ServiceEndpoint.ServiceId := key;
            ServiceEndpoint.Host := RegistrationDTO.Host (Registration r);
            ServiceEndpoint.Port := RegistrationDTO.Port (Registration r) |}, None))
   \/ exists e : error,
        result (call net (GetServiceEndpoint key) k) = (ServiceEndpoint.zero, Some e)).
Proof.
  rewrite GetServiceEndpoint_call. unfold result.
  split; [| split; [| split; [| split]]].
  - intros resp body r Hurl Hnet Hbody Hs Hr.
    rewrite Hurl, Hnet, Hbody, Hs, Hr. reflexivity.
  - intros resp Hnet Hs. rewrite Hnet. apply Z.eqb_neq in Hs. rewrite Hs.
    split_outcome; eexists; reflexivity.
  - intros err Hnet. rewrite Hnet.
    split_outcome; eexists; reflexivity.
  - intros resp body err Hnet Hbody Hs Hr. rewrite Hnet, Hbody, Hs, Hr.
    split_outcome; eexists; reflexivity.
  - destruct (url_Parse _); [right; eexists; reflexivity |].
    destruct (net [] _) as [resp | terr]; [| right; eexists; reflexivity].
    destruct (Body resp) as [body | rerr] eqn:Hbody; [| right; eexists; reflexivity].
    destruct (Z.eqb_spec (StatusCode resp) 200) as [Hs | Hs].
    + destruct (json_Unmarshal_RegistrationResponse body) as [r | derr] eqn:Hr;
        [| right; eexists; reflexivity].
      left. exists resp, body, r. repeat split; assumption.
    + right. split_outcome; eexists; reflexivity.
Qed.

Lemma GetServiceEndpoint_key_host_port_witness :
  result (call (Sample.registry
                  (Sample.answer 200
                     (Sample.one (Sample.record "core-metadata" "10.0.0.9" 59881 "UP")))
                  Sample.offline_answer)
            (GetServiceEndpoint (rt := Sample.rt) "metadata-alias") Sample.lookup_k)
  = ({| ServiceEndpoint.ServiceId := "metadata-alias";
        ServiceEndpoint.Host := "10.0.0.9";
        ServiceEndpoint.Port := 59881 |}, None).
Proof.
  apply (proj1 (GetServiceEndpoint_key_host_port (rt := Sample.rt) _ _ _)
           {| StatusCode := 200;
              Body := Ok (Sample.one (Sample.record "core-metadata" "10.0.0.9" 59881 "UP")) |}
           (Sample.one (Sample.record "core-metadata" "10.0.0.9" 59881 "UP"))
           {| Registration :=
                Sample.registration_of
                  (Sample.one (Sample.record "core-metadata" "10.0.0.9" 59881 "UP")) |});
    reflexivity.
Defined.

(** ** Looking all services up *)

(** The loop fills the slots left to right: entered at index [length done]
    with [done] already written, it ends with one endpoint per record. *)
Lemma range_Registrations_fills (rs : list RegistrationDTO.t) :
  forall done : list ServiceEndpoint.t,
    range_Registrations (length done) rs
      (done ++ replicate (length rs) ServiceEndpoint.zero)
    = (done ++ map endpoint_of rs)%list.
Proof.
  induction rs as [| r rs IH]; intros done; simpl.
  - reflexivity.
  - rewrite insert_app_r_alt by lia.
    replace (length done - length done)%nat with 0%nat by lia.
    simpl.
    specialize (IH (done ++ [endpoint_of r])%list).
    rewrite length_app in IH. simpl in IH.
    replace (length done + 1)%nat with (S (length done)) in IH by lia.
    rewrite <- !app_assoc in IH. simpl in IH.
    exact IH.
Qed.

Lemma range_Registrations_map (rs : list RegistrationDTO.t) :
  range_Registrations 0 rs (replicate (length rs) ServiceEndpoint.zero)
  = map endpoint_of rs.
Proof.
  exact (range_Registrations_fills rs []).
Qed.

Lemma GetAllServiceEndpoints_call `{rt : Runtime} (net : Network) (k : keeperClient) :
  call net GetAllServiceEndpoints k
  = match url_Parse (GetRegistryUrl (config k) +:+ ApiAllRegistrationRoute) with
    | Some err => (([], Some ("failed to create http request: " +:+ err)), k, [])
    | None =>
        (match net [] (fetch_all_request k) with
         | Err err => ([], Some ("http error: " +:+ err))
         | Ok resp =>
             match Body resp with
             | Err err => ([], Some ("failed to read response body: " +:+ err))
             | Ok body =>
                 if StatusCode resp =? 200 then
                   match json_Unmarshal_MultiRegistrationsResponse body with
                   | Err err => ([], Some ("failed to decode response body: " +:+ err))
                   | Ok responseDTO => (map endpoint_of (Registrations responseDTO), None)
                   end
                 else
                   match json_Unmarshal_BaseResponse body with
                   | Err err => ([], Some ("failed to decode response body: " +:+ err))
                   | Ok response =>
                       ([], Some ("failed to get all service endpoints: "
                                  +:+ Message response))
                   end
             end
         end, k, [fetch_all_request k])
    end.
Proof.
  unfold call, GetAllServiceEndpoints, http_NewRequest, fetch_all_request, plain_request.
  cbn.
  destruct (url_Parse _); cbn; [reflexivity |].
  destruct (net [] _) as [resp | terr]; cbn; [| reflexivity].
  destruct (Body resp) as [body | rerr]; cbn; [| reflexivity].
  unfold StatusOK.
  destruct (StatusCode resp =? 200); cbn.
  - destruct (json_Unmarshal_MultiRegistrationsResponse body) as [dto | derr];
      [| reflexivity].
    cbn. rewrite range_Registrations_map. reflexivity.
  - destruct (json_Unmarshal_BaseResponse body); reflexivity.
Qed.

(** C6. On a 200 answer whose body decodes, [GetAllServiceEndpoints]
    returns a nil error and one endpoint per record of the decoded list, in
    the order of the list, the i-th endpoint taking identifier, host and
    port from the i-th record; an empty list gives an empty sequence. *)
Theorem GetAllServiceEndpoints_in_order `{rt : Runtime}
    (net : Network) (k : keeperClient) (resp : Response) (body : string)
    (dto : MultiRegistrationsResponse) :
  url_Parse (GetRegistryUrl (config k) +:+ ApiAllRegistrationRoute) = None ->
  net [] (fetch_all_request k) = Ok resp ->
  Body resp = Ok body ->
  StatusCode resp = 200 ->
  json_Unmarshal_MultiRegistrationsResponse body = Ok dto ->
  snd (result (call net GetAllServiceEndpoints k)) = None /\
  length (fst (result (call net GetAllServiceEndpoints k))) = length (Registrations dto) /\
  (forall (i : nat) (r : RegistrationDTO.t),
     Registrations dto !! i = Some r ->
     fst (result (call net GetAllServiceEndpoints k)) !! i
     = Some {| ServiceEndpoint.ServiceId := RegistrationDTO.ServiceId r;
               ServiceEndpoint.Host := RegistrationDTO.Host r;
               ServiceEndpoint.Port := RegistrationDTO.Port r |}) /\
  (Registrations dto = [] ->
     result (call net GetAllServiceEndpoints k) = ([], None)).
Proof.
  intros Hurl Hnet Hbody Hs Hdto.
  rewrite GetAllServiceEndpoints_call, Hurl, Hnet, Hbody, Hs, Hdto.
  unfold result; cbn [fst snd Z.eqb Pos.eqb].
  split; [reflexivity |]. split; [apply length_map |]. split.
  - intros i r Hi. rewrite list_lookup_fmap, Hi. reflexivity.
  - intros ->. reflexivity.
Qed.

Lemma GetAllServiceEndpoints_in_order_witness :
  result (call (Sample.registry
                  (Sample.answer 200
                     (Sample.many [Sample.record "core-data" "10.0.0.7" 59880 "UP";
                                   Sample.record "core-metadata" "10.0.0.9" 59881 "DOWN"]))
                  Sample.offline_answer)
            (GetAllServiceEndpoints (rt := Sample.rt)) Sample.lookup_k)
  = ([{| ServiceEndpoint.ServiceId := "core-data";
         ServiceEndpoint.Host := "10.0.0.7"; ServiceEndpoint.Port := 59880 |};
      {| ServiceEndpoint.ServiceId := "core-metadata";
         ServiceEndpoint.Host := "10.0.0.9"; ServiceEndpoint.Port := 59881 |}], None)
  /\ fst (result (call (Sample.registry
                  (Sample.answer 200
                     (Sample.many [Sample.record "core-data" "10.0.0.7" 59880 "UP";
                                   Sample.record "core-metadata" "10.0.0.9" 59881 "DOWN"]))
                  Sample.offline_answer)
            (GetAllServiceEndpoints (rt := Sample.rt)) Sample.lookup_k)) !! 1%nat
     = Some {| ServiceEndpoint.ServiceId := "core-metadata";
               ServiceEndpoint.Host := "10.0.0.9"; ServiceEndpoint.Port := 59881 |}.
Proof.
  split; [vm_compute; reflexivity |].
  pose (body := Sample.many [Sample.record "core-data" "10.0.0.7" 59880 "UP";
                             Sample.record "core-metadata" "10.0.0.9" 59881 "DOWN"]).
  destruct (GetAllServiceEndpoints_in_order (rt := Sample.rt)
              (Sample.registry (Sample.answer 200 body) Sample.offline_answer)
              Sample.lookup_k
              {| StatusCode := 200; Body := Ok body |}
              body
              {| Registrations :=
                   map Sample.registration_of (Sample.records (String.length body) body) |}
              eq_refl eq_refl eq_refl eq_refl eq_refl)
    as (_ & _ & Hith & _).
  apply (Hith 1%nat
           (Sample.registration_of (Sample.record "core-metadata" "10.0.0.9" 59881 "DOWN"))).
  vm_compute. reflexivity.
Defined.

(** ** Availability *)

(** The four spellings of [up] fold to it; other words do not. *)
Lemma EqualFold_up_spellings `{rt : Runtime} :
  EqualFold "up" "up" = true /\ EqualFold "Up" "up" = true /\
  EqualFold "uP" "up" = true /\ EqualFold "UP" "up" = true /\
  EqualFold "down" "up" = false /\ EqualFold "u" "up" = false /\
  EqualFold "upp" "up" = false /\ EqualFold "" "up" = false.
Proof.
  repeat split; reflexivity.
Qed.

Lemma all_ascii_tail (c : ascii) (s : string) :
  all_ascii (String c s) -> all_ascii s.
Proof.
  intros H c' Hin. apply H. right. exact Hin.
Qed.

Lemma all_ascii_head (c : ascii) (s : string) :
  all_ascii (String c s) -> (byte_of c < 128)%N.
Proof.
  intros H. apply H. left. reflexivity.
Qed.

Lemma lor_below_128 (a b : N) :
  (a < 128)%N -> (b < 128)%N -> (N.lor a b < 128)%N.
Proof.
  intros Ha Hb.
  assert (Hlog : forall n : N, (n < 128)%N -> (N.log2 n < 7)%N).
  { intros n Hn. destruct (N.eq_dec n 0%N) as [-> | Hz]; [reflexivity |].
    apply N.log2_lt_pow2; [lia | exact Hn]. }
  destruct (N.eq_dec (N.lor a b) 0%N) as [Hz | Hz]; [rewrite Hz; reflexivity |].
  change 128%N with (2 ^ 7)%N.
  apply N.log2_lt_pow2; [lia |].
  rewrite N.log2_lor. apply N.max_lub_lt; apply Hlog; assumption.
Qed.

(** One turn of the byte loop on two ASCII bytes. *)
Lemma EqualFold_step `{rt : Runtime} (sr tr : ascii) (s t : string) :
  (byte_of sr < 128)%N -> (byte_of tr < 128)%N ->
  EqualFold (String sr s) (String tr t)
  = if byte_fold_eq sr tr then EqualFold s t else false.
Proof.
  intros Hs Ht. cbn [EqualFold]. unfold byte_fold_eq.
  pose proof (lor_below_128 _ _ Hs Ht) as Hlor.
  apply N.leb_gt in Hlor. rewrite Hlor.
  destruct (byte_of tr =? byte_of sr)%N; reflexivity.
Qed.

Lemma byte_fold_eq_lower (c : ascii) (n : N) :
  (97 <= n <= 122)%N ->
  byte_fold_eq c (ascii_of_N n) = true <->
  c = ascii_of_N n \/ c = ascii_of_N (n - 32)%N.
Proof.
  intros Hn. unfold byte_fold_eq, byte_of.
  rewrite N_ascii_embedding by lia.
  rewrite orb_true_iff, !andb_true_iff, !N.eqb_eq, !N.leb_le.
  split.
  - intros [H | [[Hlo Hhi] Hmax]].
    + left. rewrite H. symmetry. apply ascii_N_embedding.
    + right. replace (n - 32)%N with (N_of_ascii c) by lia.
      symmetry. apply ascii_N_embedding.
  - intros [-> | ->]; rewrite N_ascii_embedding by lia; lia.
Qed.

Lemma EqualFold_nil_r `{rt : Runtime} (s : string) :
  EqualFold s "" = true <-> s = "".
Proof.
  destruct s; simpl; split; intros H; try reflexivity; discriminate H.
Qed.

Lemma EqualFold_p `{rt : Runtime} (s : string) :
  all_ascii s ->
  (EqualFold s "p" = true <-> s = "p" \/ s = "P").
Proof.
  intros Hascii. destruct s as [| c s].
  - simpl. split; [discriminate | intros [H | H]; discriminate H].
  - rewrite EqualFold_step by (first [exact (all_ascii_head _ _ Hascii) | reflexivity]).
    pose proof (byte_fold_eq_lower c 112%N ltac:(lia)) as Hc.
    change (ascii_of_N 112%N) with "p"%char in Hc.
    change (ascii_of_N (112 - 32)%N) with "P"%char in Hc.
    destruct (byte_fold_eq c "p").
    + rewrite EqualFold_nil_r. split.
      * intros ->. destruct (proj1 Hc eq_refl) as [-> | ->]; auto.
      * intros [H | H]; injection H as _ ->; reflexivity.
    + split; [discriminate |].
      intros [H | H]; injection H as Hch _;
        assert (Hf : false = true) by (apply Hc; auto); discriminate Hf.
Qed.

(** Over ASCII, folding to [up] means being one of its four spellings. *)
Lemma EqualFold_up `{rt : Runtime} (s : string) :
  all_ascii s ->
  (EqualFold s "up" = true <-> s = "up" \/ s = "Up" \/ s = "uP" \/ s = "UP").
Proof.
  intros Hascii. destruct s as [| c s].
  - simpl. split; [discriminate | intros [H | [H | [H | H]]]; discriminate H].
  - rewrite EqualFold_step by (first [exact (all_ascii_head _ _ Hascii) | reflexivity]).
    pose proof (byte_fold_eq_lower c 117%N ltac:(lia)) as Hc.
    change (ascii_of_N 117%N) with "u"%char in Hc.
    change (ascii_of_N (117 - 32)%N) with "U"%char in Hc.
    pose proof (EqualFold_p s (all_ascii_tail _ _ Hascii)) as Hp.
    destruct (byte_fold_eq c "u").
    + rewrite Hp. split.
      * intros [-> | ->]; destruct (proj1 Hc eq_refl) as [-> | ->]; auto.
      * intros [H | [H | [H | H]]]; injection H as _ ->; auto.
    + split; [discriminate |].
      intros [H | [H | [H | H]]]; injection H as Hch _;
        assert (Hf : false = true) by (apply Hc; auto); discriminate Hf.
Qed.

Lemma IsServiceAvailable_call `{rt : Runtime} (net : Network) (k : keeperClient)
    (key : string) :
  call net (IsServiceAvailable key) k
  = match url_Parse (registration_url k key) with
    | Some err =>
        ((false, Some ("failed to get " +:+ key +:+ " service registry: " +:+
                       ("failed to create http request: " +:+ err))), k, [])
    | None =>
        (match net [] (fetch_request k key) with
         | Err err =>
             (false, Some ("failed to get " +:+ key +:+ " service registry: " +:+
                           ("http error: " +:+ err)))
         | Ok resp =>
             match Body resp with
             | Err err => (false, Some ("failed to read response body: " +:+ err))
             | Ok body =>
                 if StatusCode resp =? 200 then
                   match json_Unmarshal_RegistrationResponse body with
                   | Err err => (false, Some ("failed to decode response body: " +:+ err))
                   | Ok response =>
                       if EqualFold (RegistrationDTO.Status (Registration response)) "up"
                       then (true, None)
                       else (false, Some (" " +:+ key +:+ " service not healthy..."))
                   end
                 else if StatusCode resp =? 404 then
                   (false, Some (key +:+
                                 " service is not registered. Might not have started... "))
                 else
                   match json_Unmarshal_BaseResponse body with
                   | Err err => (false, Some ("failed to decode response body: " +:+ err))
                   | Ok response =>
                       (false, Some ("failed to check service availability: "
                                     +:+ Message response))
                   end
             end
         end, k, [fetch_request k key])
    end.
Proof.
  unfold call, IsServiceAvailable, getRegistryByService, http_NewRequest,
    fetch_request, plain_request, registration_url.
  cbn.
  destruct (url_Parse _); cbn; [reflexivity |].
  destruct (net [] _) as [resp | terr]; cbn; [| reflexivity].
  destruct (Body resp) as [body | rerr]; cbn; [| reflexivity].
  unfold StatusOK, StatusNotFound.
  destruct (StatusCode resp =? 200); cbn.
  - destruct (json_Unmarshal_RegistrationResponse body) as [r | derr]; [| reflexivity].
    cbn. destruct (EqualFold _ "up"); reflexivity.
  - destruct (StatusCode resp =? 404); cbn; [reflexivity |].
    destruct (json_Unmarshal_BaseResponse body); reflexivity.
Qed.

Lemma lor_from_128 (a b : N) : (128 <= a)%N -> (128 <= N.lor a b)%N.
Proof.
  intros Ha.
  assert (Hlog : (7 <= N.log2 a)%N).
  { change 128%N with (2 ^ 7)%N in Ha. apply N.log2_le_pow2; [lia | exact Ha]. }
  assert (Hlor : (7 <= N.log2 (N.lor a b))%N).
  { rewrite N.log2_lor. lia. }
  destruct (N.eq_dec (N.lor a b) 0%N) as [Hz | Hz].
  - rewrite Hz in Hlor. simpl in Hlor. lia.
  - change 128%N with (2 ^ 7)%N. apply N.log2_le_pow2; [lia | exact Hlor].
Qed.

(** A first byte with the high bit set hands both strings to the rune loop. *)
Lemma EqualFold_to_rune_loop `{rt : Runtime} (sr tr : ascii) (s t : string) :
  (128 <= byte_of sr)%N ->
  EqualFold (String sr s) (String tr t)
  = EqualFold_hasUnicode (String sr s) (String tr t).
Proof.
  intros Hs. cbn [EqualFold].
  pose proof (lor_from_128 _ (byte_of tr) Hs) as Hlor.
  apply N.leb_le in Hlor. rewrite Hlor. reflexivity.
Qed.

Lemma byte_cases (c : ascii) : (byte_of c < 128)%N \/ (128 <= byte_of c)%N.
Proof.
  lia.
Qed.

Lemma EqualFold_p_any `{rt : Runtime} (s : string) :
  rune_loop_rejects_up ->
  (EqualFold s "p" = true <-> s = "p" \/ s = "P").
Proof.
  intros Hrune. destruct s as [| c s].
  - simpl. split; [discriminate | intros [H | H]; discriminate H].
  - destruct (byte_cases c) as [Hc | Hc].
    + rewrite EqualFold_step by (first [exact Hc | reflexivity]).
      pose proof (byte_fold_eq_lower c 112%N ltac:(lia)) as Hfold.
      change (ascii_of_N 112%N) with "p"%char in Hfold.
      change (ascii_of_N (112 - 32)%N) with "P"%char in Hfold.
      destruct (byte_fold_eq c "p").
      * rewrite EqualFold_nil_r. split.
        -- intros ->. destruct (proj1 Hfold eq_refl) as [-> | ->]; auto.
        -- intros [H | H]; injection H as _ ->; reflexivity.
      * split; [discriminate |].
        intros [H | H]; injection H as Hch _;
          assert (Hf : false = true) by (apply Hfold; auto); discriminate Hf.
    + rewrite EqualFold_to_rune_loop by exact Hc.
      rewrite (Hrune c s "p" Hc (or_intror eq_refl)).
      split; [discriminate |].
      intros [H | H]; injection H as -> _; vm_compute in Hc; contradiction Hc;
        reflexivity.
Qed.

(** With the rune loop as Unicode has it, folding to [up] means being one
    of its four spellings, for every string. *)
Lemma EqualFold_up_any `{rt : Runtime} (s : string) :
  rune_loop_rejects_up ->
  (EqualFold s "up" = true <-> is_up s).
Proof.
  intros Hrune. unfold is_up. destruct s as [| c s].
  - simpl. split; [discriminate | intros [H | [H | [H | H]]]; discriminate H].
  - destruct (byte_cases c) as [Hc | Hc].
    + rewrite EqualFold_step by (first [exact Hc | reflexivity]).
      pose proof (byte_fold_eq_lower c 117%N ltac:(lia)) as Hfold.
      change (ascii_of_N 117%N) with "u"%char in Hfold.
      change (ascii_of_N (117 - 32)%N) with "U"%char in Hfold.
      pose proof (EqualFold_p_any s Hrune) as Hp.
      destruct (byte_fold_eq c "u").
      * rewrite Hp. split.
        -- intros [-> | ->]; destruct (proj1 Hfold eq_refl) as [-> | ->]; auto.
        -- intros [H | [H | [H | H]]]; injection H as _ ->; auto.
      * split; [discriminate |].
        intros [H | [H | [H | H]]]; injection H as Hch _;
          assert (Hf : false = true) by (apply Hfold; auto); discriminate Hf.
    + rewrite EqualFold_to_rune_loop by exact Hc.
      rewrite (Hrune c s "up" Hc (or_introl eq_refl)).
      split; [discriminate |].
      intros [H | [H | [H | H]]]; injection H as -> _; vm_compute in Hc;
        contradiction Hc; reflexivity.
Qed.

(** What folds to [up]: the four spellings, for an ASCII string outright
    and for any string once the rune loop is as Unicode has it. *)
Lemma EqualFold_up_iff_is_up `{rt : Runtime} (s : string) :
  all_ascii s \/ rune_loop_rejects_up ->
  (EqualFold s "up" = true <-> is_up s).
Proof.
  intros [Hascii | Hrune].
  - exact (EqualFold_up s Hascii).
  - exact (EqualFold_up_any s Hrune).
Qed.

(** C3, as the specification words it, fails: a 404 whose body breaks off
    while it is read gives the read error, not the not-registered one. *)
Lemma IsServiceAvailable_unreadable_404 :
  ~ availability_as_claimed (rt := Sample.rt)
      (truncated 404 "unexpected EOF") Sample.lookup_k "core-data".
Proof.
  intros Hclaim.
  destruct (Hclaim eq_refl) as (_ & _ & H404 & _).
  specialize (H404 {| StatusCode := 404; Body := Err "unexpected EOF" |}
                   eq_refl eq_refl).
  vm_compute in H404. discriminate H404.
Qed.

(** C3, amended. [IsServiceAvailable key] returns (true, nil) exactly when
    the fetch is answered with 200, the body is read and decoded, and the
    status of the record folds to [up]; what folds to [up] is [up], [Up],
    [uP] and [UP] and nothing else (for a status outside ASCII this rests on
    the rune loop of the library following Unicode).  Once the body is
    read: a 200 with another status gives (false, not healthy), a 404
    gives (false, not registered), any other status gives (false, the
    message of the decoded envelope).  A body that cannot be read gives
    (false, read error) under every status, 404 included.  [true] never
    comes with an error, [false] always does. *)
Theorem IsServiceAvailable_up_only `{rt : Runtime}
    (net : Network) (k : keeperClient) (key : string) :
  (result (call net (IsServiceAvailable key) k) = (true, None) <->
     exists (resp : Response) (body : string) (r : RegistrationResponse),
       url_Parse (registration_url k key) = None /\
       net [] (fetch_request k key) = Ok resp /\
       Body resp = Ok body /\
       StatusCode resp = 200 /\
       json_Unmarshal_RegistrationResponse body = Ok r /\
       EqualFold (RegistrationDTO.Status (Registration r)) "up" = true) /\
  (forall s : string,
     all_ascii s \/ rune_loop_rejects_up ->
     (EqualFold s "up" = true <-> s = "up" \/ s = "Up" \/ s = "uP" \/ s = "UP")) /\
  (rune_loop_rejects_up ->
   (result (call net (IsServiceAvailable key) k) = (true, None) <->
      exists (resp : Response) (body : string) (r : RegistrationResponse),
        url_Parse (registration_url k key) = None /\
        net [] (fetch_request k key) = Ok resp /\
        Body resp = Ok body /\
        StatusCode resp = 200 /\
        json_Unmarshal_RegistrationResponse body = Ok r /\
        is_up (RegistrationDTO.Status (Registration r)))) /\
  (forall (resp : Response) (body : string),
     url_Parse (registration_url k key) = None ->
     net [] (fetch_request k key) = Ok resp ->
     Body resp = Ok body ->
     (forall r : RegistrationResponse,
        StatusCode resp = 200 ->
        json_Unmarshal_RegistrationResponse body = Ok r ->
        EqualFold (RegistrationDTO.Status (Registration r)) "up" = false ->
        result (call net (IsServiceAvailable key) k)
        = (false, Some (" " +:+ key +:+ " service not healthy..."))) /\
     (StatusCode resp = 404 ->
        result (call net (IsServiceAvailable key) k)
        = (false, Some (key +:+ " service is not registered. Might not have started... "))) /\
     (forall env : BaseResponse,
        StatusCode resp <> 200 -> StatusCode resp <> 404 ->
        json_Unmarshal_BaseResponse body = Ok env ->
        result (call net (IsServiceAvailable key) k)
        = (false, Some ("failed to check service availability: " +:+ Message env)))) /\
  (forall (resp : Response) (err : error),
     url_Parse (registration_url k key) = None ->
     net [] (fetch_request k key) = Ok resp ->
     Body resp = Err err ->
     result (call net (IsServiceAvailable key) k)
     = (false, Some ("failed to read response body: " +:+ err))) /\
  (fst (result (call net (IsServiceAvailable key) k)) = true ->
     snd (result (call net (IsServiceAvailable key) k)) = None) /\
  (fst (result (call net (IsServiceAvailable key) k)) = false ->
     exists e : error, snd (result (call net (IsServiceAvailable key) k)) = Some e).
Proof.
  assert (Hexact :
    result (call net (IsServiceAvailable key) k) = (true, None) <->
    exists (resp : Response) (body : string) (r : RegistrationResponse),
      url_Parse (registration_url k key) = None /\
      net [] (fetch_request k key) = Ok resp /\
      Body resp = Ok body /\
      StatusCode resp = 200 /\
      json_Unmarshal_RegistrationResponse body = Ok r /\
      EqualFold (RegistrationDTO.Status (Registration r)) "up" = true).
  { rewrite IsServiceAvailable_call. unfold result. split.
    - destruct (url_Parse _); [discriminate |].
      destruct (net [] _) as [resp | terr]; [| discriminate].
      destruct (Body resp) as [body | rerr] eqn:Hbody; [| discriminate].
      destruct (Z.eqb_spec (StatusCode resp) 200) as [Hs | Hs].
      + destruct (json_Unmarshal_RegistrationResponse body) as [r | derr] eqn:Hr;
          [| discriminate].
        destruct (EqualFold _ "up") eqn:Hup; [| discriminate].
        intros _. exists resp, body, r. repeat split; assumption.
      + cbn [fst]. split_outcome; discriminate.
    - intros (resp & body & r & Hurl & Hnet & Hbody & Hs & Hr & Hup).
      rewrite Hurl, Hnet, Hbody, Hs, Hr, Hup. reflexivity. }
  split; [exact Hexact |].
  split; [intros s Hs; exact (EqualFold_up_iff_is_up s Hs) |].
  split.
  { intros Hrune. rewrite Hexact. split.
    - intros (resp & body & r & Hurl & Hnet & Hbody & Hs & Hr & Hup).
      exists resp, body, r. repeat split; try assumption.
      apply (EqualFold_up_any _ Hrune). exact Hup.
    - intros (resp & body & r & Hurl & Hnet & Hbody & Hs & Hr & Hup).
      exists resp, body, r. repeat split; try assumption.
      apply (EqualFold_up_any _ Hrune). exact Hup. }
  rewrite IsServiceAvailable_call. unfold result.
  split; [| split; [| split]].
  - intros resp body Hurl Hnet Hbody. rewrite Hurl, Hnet, Hbody. cbn [fst].
    split; [| split].
    + intros r Hs Hr Hup. rewrite Hs, Hr, Hup. reflexivity.
    + intros Hs. rewrite Hs. reflexivity.
    + intros env H200 H404 Henv. apply Z.eqb_neq in H200, H404.
      rewrite H200, H404, Henv. reflexivity.
  - intros resp err Hurl Hnet Hbody. rewrite Hurl, Hnet, Hbody. reflexivity.
  - split_outcome; cbn [fst snd]; intros H; first [reflexivity | discriminate H].
  - split_outcome; cbn [fst snd]; intros H;
      first [discriminate H | eexists; reflexivity].
Qed.

Lemma IsServiceAvailable_up_only_witness :
  result (call (Sample.registry
                  (Sample.answer 200
                     (Sample.one (Sample.record "core-data" "10.0.0.7" 59880 "UP")))
                  Sample.offline_answer)
            (IsServiceAvailable (rt := Sample.rt) "core-data") Sample.lookup_k)
  = (true, None)
  /\ result (call (Sample.registry
                     (Sample.answer 200
                        (Sample.one (Sample.record "core-data" "10.0.0.7" 59880 "DOWN")))
                     Sample.offline_answer)
               (IsServiceAvailable (rt := Sample.rt) "core-data") Sample.lookup_k)
     = (false, Some " core-data service not healthy...")
  /\ result (call (Sample.registry (Sample.answer 404 "") Sample.offline_answer)
               (IsServiceAvailable (rt := Sample.rt) "core-data") Sample.lookup_k)
     = (false, Some "core-data service is not registered. Might not have started... ")
  /\ result (call (truncated 404 "unexpected EOF")
               (IsServiceAvailable (rt := Sample.rt) "core-data") Sample.lookup_k)
     = (false, Some "failed to read response body: unexpected EOF").
Proof.
  assert (Hrune : rune_loop_rejects_up (rt := Sample.rt)).
  { intros c s t _ _. reflexivity. }
  split; [| split; [| split]].
  - apply (proj1 (proj2 (proj2 (IsServiceAvailable_up_only (rt := Sample.rt) _ _ _)))
             Hrune).
    eexists; eexists; eexists.
    split; [reflexivity |]. split; [reflexivity |]. split; [reflexivity |].
    split; [reflexivity |]. split; [reflexivity |].
    right; right; right. reflexivity.
  - edestruct (proj1 (proj2 (proj2 (proj2 (IsServiceAvailable_up_only (rt := Sample.rt)
                 (Sample.registry
                    (Sample.answer 200
                       (Sample.one (Sample.record "core-data" "10.0.0.7" 59880 "DOWN")))
                    Sample.offline_answer)
                 Sample.lookup_k "core-data")))))
      as (Hdown & _ & _); [reflexivity | reflexivity | reflexivity |].
    apply (Hdown {| Registration :=
                      Sample.registration_of
                        (Sample.one (Sample.record "core-data" "10.0.0.7" 59880 "DOWN")) |});
      [reflexivity | reflexivity |].
    apply not_true_is_false. intros Hup.
    apply (proj1 (proj2 (IsServiceAvailable_up_only (rt := Sample.rt)
                           Sample.offline Sample.lookup_k "core-data"))
             _ (or_intror Hrune)) in Hup.
    destruct Hup as [H | [H | [H | H]]]; vm_compute in H; discriminate H.
  - edestruct (proj1 (proj2 (proj2 (proj2 (IsServiceAvailable_up_only (rt := Sample.rt)
                 (Sample.registry (Sample.answer 404 "") Sample.offline_answer)
                 Sample.lookup_k "core-data")))))
      as (_ & Hmissing & _); [reflexivity | reflexivity | reflexivity |].
    apply Hmissing. reflexivity.
  - apply (proj1 (proj2 (proj2 (proj2 (proj2 (IsServiceAvailable_up_only
                 (rt := Sample.rt) (truncated 404 "unexpected EOF")
                 Sample.lookup_k "core-data")))))
             {| StatusCode := 404; Body := Err "unexpected EOF" |} "unexpected EOF");
      reflexivity.
Defined.

(** ** The client is never written *)

Lemma keeps_receiver_ret {A : Type} (a : A) :
  keeps_receiver (ret (M := Meth) a).
Proof.
  intros net sent k. reflexivity.
Qed.

Lemma keeps_receiver_this : keeps_receiver this.
Proof.
  intros net sent k. reflexivity.
Qed.

Lemma keeps_receiver_liftIO {A : Type} (m : IO A) :
  keeps_receiver (liftIO m).
Proof.
  intros net sent k. unfold liftIO. rewrite run_bind. reflexivity.
Qed.

Lemma keeps_receiver_bind {A B : Type} (m : Meth A) (f : A -> Meth B) :
  keeps_receiver m ->
  (forall a : A, keeps_receiver (f a)) ->
  keeps_receiver (bind (M := Meth) m f).
Proof.
  intros Hm Hf net sent k. cbn. rewrite run_bind.
  specialize (Hm net sent k).
  destruct (run net sent (m k)) as [[a k'] sent']. simpl in *. subst k'.
  apply Hf.
Qed.

(** Walks a method body: sequencing, reads of the receiver, calls that do
    not see it, and the branches in between. *)
Ltac keeps_receiver_walk :=
  repeat first
    [ apply keeps_receiver_ret
    | apply keeps_receiver_this
    | apply keeps_receiver_liftIO
    | apply keeps_receiver_bind; [| intros ?]
    | match goal with
      | |- keeps_receiver (match ?x with _ => _ end) => destruct x
      end
    | progress cbv zeta ].

Lemma Register_keeps_receiver `{rt : Runtime} : keeps_receiver Register.
Proof.
  unfold Register. keeps_receiver_walk.
Qed.

Lemma Unregister_keeps_receiver `{rt : Runtime} : keeps_receiver Unregister.
Proof.
  unfold Unregister. keeps_receiver_walk.
Qed.

Lemma RegisterCheck_keeps_receiver `{rt : Runtime} (id name notes url interval : string) :
  keeps_receiver (RegisterCheck id name notes url interval).
Proof.
  unfold RegisterCheck. keeps_receiver_walk.
Qed.

Lemma IsAlive_keeps_receiver `{rt : Runtime} : keeps_receiver IsAlive.
Proof.
  unfold IsAlive. keeps_receiver_walk.
Qed.

Lemma GetServiceEndpoint_keeps_receiver `{rt : Runtime} (key : string) :
  keeps_receiver (GetServiceEndpoint key).
Proof.
  unfold GetServiceEndpoint. keeps_receiver_walk.
Qed.

Lemma GetAllServiceEndpoints_keeps_receiver `{rt : Runtime} :
  keeps_receiver GetAllServiceEndpoints.
Proof.
  unfold GetAllServiceEndpoints. keeps_receiver_walk.
Qed.

Lemma IsServiceAvailable_keeps_receiver `{rt : Runtime} (key : string) :
  keeps_receiver (IsServiceAvailable key).
Proof.
  unfold IsServiceAvailable. keeps_receiver_walk.
Qed.

(** C9. Whatever the registry answers, and so on every success and every
    error path, each public operation returns with the client it was called
    on: configuration, registry URL, service key, host, port, health-check
    route and interval are all as before. *)
Theorem operations_leave_client_unchanged `{rt : Runtime}
    (net : Network) (k : keeperClient) :
  receiver (call net Register k) = k /\
  receiver (call net Unregister k) = k /\
  (forall id name notes url interval : string,
     receiver (call net (RegisterCheck id name notes url interval) k) = k) /\
  receiver (call net IsAlive k) = k /\
  (forall key : string, receiver (call net (GetServiceEndpoint key) k) = k) /\
  receiver (call net GetAllServiceEndpoints k) = k /\
  (forall key : string, receiver (call net (IsServiceAvailable key) k) = k).
Proof.
  unfold receiver, call.
  split; [apply Register_keeps_receiver |].
  split; [apply Unregister_keeps_receiver |].
  split; [intros; apply RegisterCheck_keeps_receiver |].
  split; [apply IsAlive_keeps_receiver |].
  split; [intros; apply GetServiceEndpoint_keeps_receiver |].
  split; [apply GetAllServiceEndpoints_keeps_receiver |].
  intros; apply IsServiceAvailable_keeps_receiver.
Qed.

(** Field by field, on a registration that the registry refuses. *)
Example Register_refused_keeps_fields :
  let after :=
    receiver (call (Sample.registry (Sample.answer 404 "")
                      (Sample.answer 500 (Sample.envelope "database is down")))
                (Register (rt := Sample.rt)) Sample.k) in
  config after = Sample.cfg /\ keeperUrl after = "http://localhost:59890" /\
  serviceKey after = "core-data" /\ serviceHost after = "10.0.0.7" /\
  servicePort after = 59880 /\ healthCheckRoute after = "/api/v3/ping" /\
  healthCheckInterval after = "10s".
Proof.
  repeat split; reflexivity.
Qed.

(** ** The client at work *)

(** A client built from a configuration that lacks any of the five fields
    cannot register: whichever field is missing, the guard of [Register]
    sees an empty or zero field. *)
Lemma Register_after_incomplete_configuration `{rt : Runtime}
    (cfg : Config.t) (c : keeperClient) (net : Network) :
  NewKeeperClient cfg = Ret (c, None) ->
  Config.ServiceKey cfg = "" \/ Config.ServiceHost cfg = "" \/
  Config.ServicePort cfg = 0 \/ Config.CheckRoute cfg = "" \/
  Config.CheckInterval cfg = "" ->
  call net Register c
  = (Some "unable to register service with keeper: Service information not set", c, []).
Proof.
  intros Hnew Hmissing.
  unfold call. rewrite Register_guard_fires; [reflexivity |].
  unfold NewKeeperClient in Hnew. cbn in Hnew.
  destruct (String.eqb_spec (Config.ServiceHost cfg) "") as [Hhost | Hhost];
    cbn in Hnew; injection Hnew as <-; cbn.
  - right; left; reflexivity.
  - destruct Hmissing as [H | [H | [H | [H | H]]]]; auto; contradiction.
Qed.

Example lookup_only_client :
  NewKeeperClient (rt := Sample.rt) Sample.lookup_cfg
  = Ret ({| config := Sample.lookup_cfg;
            keeperUrl := "http://localhost:59890";
            serviceKey := "app-rules";
            serviceHost := ""; servicePort := 0;
            healthCheckRoute := ""; healthCheckInterval := "" |}, None).
Proof.
  reflexivity.
Qed.

Example Register_creates_when_absent :
  call (Sample.registry (Sample.answer 404 (Sample.envelope "not found"))
          (Sample.answer 201 ""))
       (Register (rt := Sample.rt)) Sample.k
  = (None, Sample.k,
     [fetch_request (rt := Sample.rt) Sample.k "core-data";
      register_request (rt := Sample.rt) Sample.k MethodPost
        (Sample.encode (registrationReq (rt := Sample.rt) Sample.k))]).
Proof.
  reflexivity.
Qed.

Example Register_registry_unreachable :
  call Sample.offline (Register (rt := Sample.rt)) Sample.k
  = (Some ("failed to check the core-data service registry status: " +:+
           "http error: dial tcp: connection refused"),
     Sample.k,
     [fetch_request (rt := Sample.rt) Sample.k "core-data"]).
Proof.
  reflexivity.
Qed.

Example Register_answer_not_an_envelope :
  result (call (Sample.registry (Sample.answer 200 "{}") (Sample.answer 502 "Bad Gateway"))
            (Register (rt := Sample.rt)) Sample.k)
  = Some ("failed to decode response body: " +:+
          "invalid character looking for beginning of value").
Proof.
  reflexivity.
Qed.

Example IsServiceAvailable_down :
  result (call (Sample.registry
                  (Sample.answer 200
                     (Sample.one (Sample.record "core-data" "10.0.0.7" 59880 "DOWN")))
                  Sample.offline_answer)
            (IsServiceAvailable (rt := Sample.rt) "core-data") Sample.lookup_k)
  = (false, Some " core-data service not healthy...").
Proof.
  reflexivity.
Qed.

Example GetAllServiceEndpoints_none_registered :
  result (call (Sample.registry (Sample.answer 200 (Sample.many [])) Sample.offline_answer)
            (GetAllServiceEndpoints (rt := Sample.rt)) Sample.lookup_k)
  = ([], None).
Proof.
  reflexivity.
Qed.

Example GetServiceEndpoint_not_found :
  result (call (Sample.registry
                  (Sample.answer 404 (Sample.envelope "no registration for core-data"))
                  Sample.offline_answer)
            (GetServiceEndpoint (rt := Sample.rt) "core-data") Sample.lookup_k)
  = (ServiceEndpoint.zero,
     Some "failed to get service endpoint: no registration for core-data").
Proof.
  reflexivity.
Qed.

(** * Further properties of the client *)

(** ** What each operation hands to the HTTP client *)

Lemma IsAlive_call `{rt : Runtime} (net : Network) (k : keeperClient) :
  call net IsAlive k
  = match url_Parse (keeperUrl k +:+ ApiPingRoute) with
    | Some _ => (false, k, [])
    | None =>
        (match net [] (ping_request k) with
         | Err _ => false
         | Ok resp => (200 <=? StatusCode resp) && (StatusCode resp <? 300)
         end, k, [ping_request k])
    end.
Proof.
  unfold call, IsAlive, client_Get, http_NewRequest, ping_request, plain_request.
  cbn.
  destruct (url_Parse (keeperUrl k +:+ ApiPingRoute)); cbn; [reflexivity |].
  destruct (net [] _) as [resp | terr]; cbn; [| reflexivity].
  unfold StatusOK, StatusMultipleChoices.
  destruct ((200 <=? StatusCode resp) && (StatusCode resp <? 300)); reflexivity.
Qed.

Lemma IsAlive_trace `{rt : Runtime} (net : Network) (k : keeperClient) :
  trace (call net IsAlive k) = [] \/ trace (call net IsAlive k) = [ping_request k].
Proof.
  rewrite IsAlive_call. destruct (url_Parse _); [left | right]; reflexivity.
Qed.

Lemma Unregister_trace `{rt : Runtime} (net : Network) (k : keeperClient) :
  trace (call net Unregister k) = [] \/
  trace (call net Unregister k) = [unregister_request k].
Proof.
  rewrite Unregister_call. destruct (url_Parse _); [left | right]; reflexivity.
Qed.

Lemma GetServiceEndpoint_trace `{rt : Runtime} (net : Network) (k : keeperClient)
    (key : string) :
  trace (call net (GetServiceEndpoint key) k) = [] \/
  trace (call net (GetServiceEndpoint key) k) = [fetch_request k key].
Proof.
  rewrite GetServiceEndpoint_call. destruct (url_Parse _); [left | right]; reflexivity.
Qed.

Lemma GetAllServiceEndpoints_trace `{rt : Runtime} (net : Network) (k : keeperClient) :
  trace (call net GetAllServiceEndpoints k) = [] \/
  trace (call net GetAllServiceEndpoints k) = [fetch_all_request k].
Proof.
  rewrite GetAllServiceEndpoints_call.
  destruct (url_Parse _); [left | right]; reflexivity.
Qed.

Lemma IsServiceAvailable_trace `{rt : Runtime} (net : Network) (k : keeperClient)
    (key : string) :
  trace (call net (IsServiceAvailable key) k) = [] \/
  trace (call net (IsServiceAvailable key) k) = [fetch_request k key].
Proof.
  rewrite IsServiceAvailable_call. destruct (url_Parse _); [left | right]; reflexivity.
Qed.

(** The guard of [Register] either fires or finds all five fields. *)
Lemma Register_guard_cases (k : keeperClient) :
  (serviceKey k = "" \/ serviceHost k = "" \/ servicePort k = 0 \/
   healthCheckRoute k = "" \/ healthCheckInterval k = "")
  \/ registration_data_set k.
Proof.
  unfold registration_data_set.
  destruct (String.eqb_spec (serviceKey k) ""); [auto |].
  destruct (String.eqb_spec (serviceHost k) ""); [auto |].
  destruct (Z.eqb_spec (servicePort k) 0); [auto |].
  destruct (String.eqb_spec (healthCheckRoute k) ""); [auto 6 |].
  destruct (String.eqb_spec (healthCheckInterval k) ""); [auto 6 |].
  right. repeat split; assumption.
Qed.

(** Every run of [Register], with or without the fields set. *)
Lemma Register_trace_shape `{rt : Runtime} (net : Network) (k : keeperClient) :
  trace (call net Register k) = [] \/
  trace (call net Register k) = [fetch_request k (serviceKey k)] \/
  exists (probe : Response) (data : string),
    registration_data_set k /\
    json_Marshal (registrationReq k) = Ok data /\
    net [] (fetch_request k (serviceKey k)) = Ok probe /\
    trace (call net Register k)
    = [fetch_request k (serviceKey k);
       register_request k
         (if StatusCode probe =? 200 then MethodPut else MethodPost) data].
Proof.
  destruct (Register_guard_cases k) as [Hmissing | Hset].
  - left. unfold call. rewrite (Register_guard_fires k Hmissing). reflexivity.
  - rewrite (Register_call net k Hset).
    destruct (json_Marshal (registrationReq k)) as [data | merr]; [| left; reflexivity].
    destruct (url_Parse (registration_url k (serviceKey k))); [left; reflexivity |].
    destruct (net [] _) as [probe | terr] eqn:Hprobe; [| right; left; reflexivity].
    cbv zeta.
    destruct (url_Parse (GetRegistryUrl (config k) +:+ ApiRegisterRoute));
      [right; left; reflexivity |].
    right; right. exists probe, data.
    split; [exact Hset |]. split; [reflexivity |]. split; reflexivity.
Qed.

Lemma single_read_cases (t : list Request) (req : Request) :
  read_only req -> t = [] \/ t = [req] -> single_read t.
Proof.
  intros Hreq [-> | ->]; split; simpl.
  - lia.
  - intros r [].
  - lia.
  - intros r [<- | []]. exact Hreq.
Qed.

Lemma plain_get_read_only (url : string) : read_only (plain_request MethodGet url).
Proof.
  repeat split.
Qed.

(** X1. Each of the four lookups ([IsAlive], [GetServiceEndpoint],
    [GetAllServiceEndpoints], [IsServiceAvailable]) calls the HTTP client at
    most once, whatever that call returns, and the request it hands over is
    a GET built without body or header.  The lookups themselves never ask
    for a write and never call again; redirects that the HTTP client follows
    inside the call are outside this statement. *)
Theorem lookups_call_client_once_read_only `{rt : Runtime}
    (net : Network) (k : keeperClient) :
  single_read (trace (call net IsAlive k)) /\
  (forall key : string, single_read (trace (call net (GetServiceEndpoint key) k))) /\
  single_read (trace (call net GetAllServiceEndpoints k)) /\
  (forall key : string, single_read (trace (call net (IsServiceAvailable key) k))).
Proof.
  split; [| split; [| split]].
  - exact (single_read_cases _ _ (plain_get_read_only _) (IsAlive_trace net k)).
  - intros key.
    exact (single_read_cases _ _ (plain_get_read_only _)
             (GetServiceEndpoint_trace net k key)).
  - exact (single_read_cases _ _ (plain_get_read_only _)
             (GetAllServiceEndpoints_trace net k)).
  - intros key.
    exact (single_read_cases _ _ (plain_get_read_only _)
             (IsServiceAvailable_trace net k key)).
Qed.

Lemma lookups_call_client_once_read_only_witness :
  trace (call (Sample.registry (Sample.answer 500 (Sample.envelope "boom"))
                 Sample.offline_answer)
           (GetAllServiceEndpoints (rt := Sample.rt)) Sample.lookup_k)
  = [fetch_all_request (rt := Sample.rt) Sample.lookup_k]
  /\ single_read
       (trace (call (Sample.registry (Sample.answer 500 (Sample.envelope "boom"))
                       Sample.offline_answer)
                 (GetAllServiceEndpoints (rt := Sample.rt)) Sample.lookup_k)).
Proof.
  split; [reflexivity |].
  apply (lookups_call_client_once_read_only (rt := Sample.rt)).
Defined.

(** X2. [Unregister] calls the HTTP client at most once, with a DELETE
    built without body or header for the record of the client's own key.
    It makes no call exactly when that URL does not parse, and then reports
    that the request could not be created.  Redirects followed inside the
    call are outside this statement. *)
Theorem Unregister_calls_client_once_with_delete `{rt : Runtime} (net : Network) (k : keeperClient) :
  (length (trace (call net Unregister k)) <= 1)%nat /\
  (forall req : Request,
     In req (trace (call net Unregister k)) ->
     req_Method req = MethodDelete /\
     req_URL req
     = GetRegistryUrl (config k) +:+ ApiRegistrationByServiceIdRoute +:+ serviceKey k /\
     req_Body req = None /\ req_Header req = []) /\
  (trace (call net Unregister k) = [] <->
     exists err : error,
       url_Parse (GetRegistryUrl (config k) +:+ ApiRegistrationByServiceIdRoute
                  +:+ serviceKey k) = Some err /\
       result (call net Unregister k)
       = Some ("failed to create unregister request: " +:+ err)).
Proof.
  rewrite Unregister_call. unfold registration_url, unregister_request, plain_request.
  destruct (url_Parse _) as [err |]; unfold trace, result; cbn [fst snd length In].
  - split; [lia |]. split; [intros req [] |].
    split; [intros _; exists err; split; reflexivity | reflexivity].
  - split; [lia |]. split.
    + intros req [<- | []]. repeat split.
    + split; [discriminate |]. intros (err & Herr & _). discriminate Herr.
Qed.

Lemma Unregister_calls_client_once_with_delete_witness :
  trace (call Sample.offline (Unregister (rt := Sample.rt)) Sample.k)
  = [unregister_request (rt := Sample.rt) Sample.k]
  /\ req_Method (unregister_request (rt := Sample.rt) Sample.k) = MethodDelete
  /\ req_URL (unregister_request (rt := Sample.rt) Sample.k)
     = "http://localhost:59890/api/v3/registry/serviceId/core-data".
Proof.
  split; [reflexivity |].
  destruct (proj1 (proj2 (Unregister_calls_client_once_with_delete (rt := Sample.rt)
                            Sample.offline Sample.k))
              (unregister_request (rt := Sample.rt) Sample.k))
    as (Hmethod & Hurl & _).
  - left. reflexivity.
  - split; [exact Hmethod | exact Hurl].
Defined.

(** X3. Whatever the client and the registry, [Register] calls the HTTP
    client at most twice.  The first request it hands over is always the GET
    of the record under its own key; a second call is made only after the
    first returned a response, and its request is a PUT or a POST for the
    register route with the JSON content type as its only header and the
    encoded record as its body.  [Register] never builds a DELETE. *)
Theorem Register_calls_client_for_probe_then_write `{rt : Runtime}
    (net : Network) (k : keeperClient) :
  (length (trace (call net Register k)) <= 2)%nat /\
  (forall req : Request,
     trace (call net Register k) !! 0%nat = Some req ->
     req = fetch_request k (serviceKey k)) /\
  (forall req : Request,
     trace (call net Register k) !! 1%nat = Some req ->
     (req_Method req = MethodPut \/ req_Method req = MethodPost) /\
     req_URL req = GetRegistryUrl (config k) +:+ ApiRegisterRoute /\
     req_Header req = [(ContentType, ContentTypeJSON)] /\
     (exists data : string,
        json_Marshal (registrationReq k) = Ok data /\ req_Body req = Some data) /\
     exists probe : Response, net [] (fetch_request k (serviceKey k)) = Ok probe) /\
  (forall req : Request,
     In req (trace (call net Register k)) -> req_Method req <> MethodDelete).
Proof.
  destruct (Register_trace_shape net k)
    as [Ht | [Ht | (probe & data & Hset & Hdata & Hprobe & Ht)]]; rewrite Ht.
  - split; [simpl; lia |]. split; [intros req H; discriminate H |].
    split; [intros req H; discriminate H |]. intros req [].
  - split; [simpl; lia |]. split; [intros req H; injection H as <-; reflexivity |].
    split; [intros req H; discriminate H |].
    intros req [<- | []]. discriminate.
  - split; [simpl; lia |]. split; [intros req H; injection H as <-; reflexivity |].
    split.
    + intros req H. injection H as <-. cbn.
      split; [destruct (StatusCode probe =? 200); auto |].
      split; [reflexivity |]. split; [reflexivity |].
      split; [exists data; split; [exact Hdata | reflexivity] |].
      exists probe. exact Hprobe.
    + intros req [<- | [<- | []]]; cbn; [discriminate |].
      destruct (StatusCode probe =? 200); discriminate.
Qed.

Lemma Register_calls_client_for_probe_then_write_witness :
  trace (call (Sample.registry (Sample.answer 404 "") (Sample.answer 201 ""))
           (Register (rt := Sample.rt)) Sample.k) !! 1%nat
  = Some (register_request (rt := Sample.rt) Sample.k MethodPost
            (Sample.encode (registrationReq (rt := Sample.rt) Sample.k)))
  /\ req_Header (register_request (rt := Sample.rt) Sample.k MethodPost
                   (Sample.encode (registrationReq (rt := Sample.rt) Sample.k)))
     = [("Content-Type", "application/json")].
Proof.
  assert (Hsecond :
    trace (call (Sample.registry (Sample.answer 404 "") (Sample.answer 201 ""))
             (Register (rt := Sample.rt)) Sample.k) !! 1%nat
    = Some (register_request (rt := Sample.rt) Sample.k MethodPost
              (Sample.encode (registrationReq (rt := Sample.rt) Sample.k)))).
  { reflexivity. }
  split; [exact Hsecond |].
  destruct (proj1 (proj2 (proj2 (Register_calls_client_for_probe_then_write (rt := Sample.rt)
                                    (Sample.registry (Sample.answer 404 "")
                                       (Sample.answer 201 ""))
                                    Sample.k)))
              _ Hsecond)
    as (_ & _ & Hheader & _).
  exact Hheader.
Defined.

(** ** Registering, beyond the happy path *)

(** X4. [Register] returns nil only after both calls of the HTTP client:
    the five fields were set, the record was encoded, the probe call
    returned a response, and the call for the PUT or POST returned a
    response with status 201 or 204.  Those two requests are then exactly
    what was handed to the HTTP client. *)
Theorem Register_nil_needs_both_answers `{rt : Runtime}
    (net : Network) (k : keeperClient) :
  result (call net Register k) = None ->
  registration_data_set k /\
  exists (probe : Response) (data : string) (final : Response),
    json_Marshal (registrationReq k) = Ok data /\
    net [] (fetch_request k (serviceKey k)) = Ok probe /\
    net [fetch_request k (serviceKey k)]
        (register_request k
           (if StatusCode probe =? 200 then MethodPut else MethodPost) data)
    = Ok final /\
    (StatusCode final = 201 \/ StatusCode final = 204) /\
    trace (call net Register k)
    = [fetch_request k (serviceKey k);
       register_request k
         (if StatusCode probe =? 200 then MethodPut else MethodPost) data].
Proof.
  destruct (Register_guard_cases k) as [Hmissing | Hset].
  - unfold call. rewrite (Register_guard_fires k Hmissing). discriminate.
  - rewrite (Register_call net k Hset). intros Hnone. split; [exact Hset |].
    destruct (json_Marshal (registrationReq k)) as [data | merr]; [| discriminate Hnone].
    destruct (url_Parse (registration_url k (serviceKey k))); [discriminate Hnone |].
    destruct (net [] _) as [probe | terr]; [| discriminate Hnone].
    cbv zeta in *.
    destruct (url_Parse (GetRegistryUrl (config k) +:+ ApiRegisterRoute));
      [discriminate Hnone |].
    unfold result in Hnone; cbn [fst snd] in Hnone.
    destruct (net [fetch_request k (serviceKey k)] _) as [final | terr] eqn:Hfinal;
      [| discriminate Hnone].
    destruct ((StatusCode final =? 201) || (StatusCode final =? 204)) eqn:Hs;
      [| discriminate Hnone].
    exists probe, data, final.
    split; [reflexivity |]. split; [reflexivity |]. split; [exact Hfinal |].
    split; [apply created_or_no_content; exact Hs | reflexivity].
Qed.

Lemma Register_nil_needs_both_answers_witness :
  registration_data_set Sample.k
  /\ exists (probe : Response) (data : string) (final : Response),
       json_Marshal (Runtime := Sample.rt) (registrationReq (rt := Sample.rt) Sample.k)
       = Ok data /\
       Sample.registry (Sample.answer 404 "") (Sample.answer 201 "") []
         (fetch_request (rt := Sample.rt) Sample.k (serviceKey Sample.k)) = Ok probe /\
       Sample.registry (Sample.answer 404 "") (Sample.answer 201 "")
         [fetch_request (rt := Sample.rt) Sample.k (serviceKey Sample.k)]
         (register_request (rt := Sample.rt) Sample.k
            (if StatusCode probe =? 200 then MethodPut else MethodPost) data)
       = Ok final /\
       (StatusCode final = 201 \/ StatusCode final = 204) /\
       trace (call (Sample.registry (Sample.answer 404 "") (Sample.answer 201 ""))
                (Register (rt := Sample.rt)) Sample.k)
       = [fetch_request (rt := Sample.rt) Sample.k (serviceKey Sample.k);
          register_request (rt := Sample.rt) Sample.k
            (if StatusCode probe =? 200 then MethodPut else MethodPost) data].
Proof.
  apply (Register_nil_needs_both_answers (rt := Sample.rt)
           (Sample.registry (Sample.answer 404 "") (Sample.answer 201 "")) Sample.k).
  reflexivity.
Defined.

(** X5. When the probe cannot be sent or is not answered, [Register] stops
    there: no PUT or POST follows, and the error names the service key and
    wraps the error of the probe, itself already wrapped by
    [getRegistryByService]. *)
Theorem Register_stops_when_probe_fails `{rt : Runtime}
    (net : Network) (k : keeperClient) (data : string) :
  registration_data_set k ->
  json_Marshal (registrationReq k) = Ok data ->
  (forall err : error,
     url_Parse (registration_url k (serviceKey k)) = None ->
     net [] (fetch_request k (serviceKey k)) = Err err ->
     call net Register k
     = (Some ("failed to check the " +:+ serviceKey k +:+ " service registry status: "
              +:+ "http error: " +:+ err),
        k, [fetch_request k (serviceKey k)])) /\
  (forall err : error,
     url_Parse (registration_url k (serviceKey k)) = Some err ->
     call net Register k
     = (Some ("failed to check the " +:+ serviceKey k +:+ " service registry status: "
              +:+ "failed to create http request: " +:+ err),
        k, [])).
Proof.
  intros Hset Hdata. rewrite (Register_call net k Hset), Hdata. split.
  - intros err Hurl Hnet. rewrite Hurl, Hnet. reflexivity.
  - intros err Hurl. rewrite Hurl. reflexivity.
Qed.

Lemma Register_stops_when_probe_fails_witness :
  call Sample.offline (Register (rt := Sample.rt)) Sample.k
  = (Some "failed to check the core-data service registry status: http error: dial tcp: connection refused",
     Sample.k,
     [fetch_request (rt := Sample.rt) Sample.k "core-data"]).
Proof.
  assert (Hset : registration_data_set Sample.k).
  { repeat split; intros H; vm_compute in H; discriminate H. }
  apply (proj1 (Register_stops_when_probe_fails (rt := Sample.rt) Sample.offline Sample.k
                  (Sample.encode (registrationReq (rt := Sample.rt) Sample.k))
                  Hset eq_refl)
           "dial tcp: connection refused");
    reflexivity.
Defined.

(** ** Lookups, beyond the happy path *)

(** X7. An answer that makes [IsServiceAvailable] report (true, nil) also
    makes [GetServiceEndpoint] succeed: when the fetch of
    [GetServiceEndpoint key] is answered as the fetch of
    [IsServiceAvailable key] was, it returns a nil error and the endpoint
    made of the key and of the host and port of the record in that answer.
    Nothing is said of a registry that answers the two fetches
    differently. *)
Theorem available_answer_resolves `{rt : Runtime}
    (asked resolved : Network) (k : keeperClient) (key : string) :
  resolved [] (fetch_request k key) = asked [] (fetch_request k key) ->
  result (call asked (IsServiceAvailable key) k) = (true, None) ->
  exists (resp : Response) (body : string) (r : RegistrationResponse),
    asked [] (fetch_request k key) = Ok resp /\
    Body resp = Ok body /\
    json_Unmarshal_RegistrationResponse body = Ok r /\
    result (call resolved (GetServiceEndpoint key) k)
    = ({| ServiceEndpoint.ServiceId := key;
          ServiceEndpoint.Host := RegistrationDTO.Host (Registration r);
          ServiceEndpoint.Port := RegistrationDTO.Port (Registration r) |}, None).
Proof.
  intros Hsame.
  rewrite IsServiceAvailable_call, GetServiceEndpoint_call, Hsame. unfold result.
  destruct (url_Parse _); [discriminate |]. cbn [fst].
  destruct (asked [] _) as [resp | terr]; [| discriminate].
  destruct (Body resp) as [body | rerr] eqn:Hbody; [| discriminate].
  destruct (StatusCode resp =? 200).
  - destruct (json_Unmarshal_RegistrationResponse body) as [r | derr] eqn:Hr;
      [| discriminate].
    intros _. exists resp, body, r.
    split; [reflexivity |]. split; [exact Hbody |]. split; [exact Hr | reflexivity].
  - split_outcome; discriminate.
Qed.

Lemma available_answer_resolves_witness :
  result (call (fun _ _ =>
                  Sample.answer 200
                    (Sample.one (Sample.record "core-data" "10.0.0.7" 59880 "up")))
            (GetServiceEndpoint (rt := Sample.rt) "core-data") Sample.lookup_k)
  = ({| ServiceEndpoint.ServiceId := "core-data";
        ServiceEndpoint.Host := "10.0.0.7";
        ServiceEndpoint.Port := 59880 |}, None).
Proof.
  destruct (available_answer_resolves (rt := Sample.rt)
              (Sample.registry
                 (Sample.answer 200
                    (Sample.one (Sample.record "core-data" "10.0.0.7" 59880 "up")))
                 Sample.offline_answer)
              (fun _ _ =>
                 Sample.answer 200
                   (Sample.one (Sample.record "core-data" "10.0.0.7" 59880 "up")))
              Sample.lookup_k "core-data" eq_refl eq_refl)
    as (resp & body & r & Hresp & Hbody & Hr & Hresult).
  injection Hresp as <-. injection Hbody as <-. injection Hr as <-.
  exact Hresult.
Defined.

(** X8. [GetAllServiceEndpoints] returns a nil error exactly when the list
    was fetched with status 200 and its body was read and decoded; on every
    other path the error comes with no endpoint at all. *)
Theorem GetAllServiceEndpoints_nothing_on_failure `{rt : Runtime}
    (net : Network) (k : keeperClient) :
  (snd (result (call net GetAllServiceEndpoints k)) = None <->
     exists (resp : Response) (body : string) (dto : MultiRegistrationsResponse),
       url_Parse (GetRegistryUrl (config k) +:+ ApiAllRegistrationRoute) = None /\
       net [] (fetch_all_request k) = Ok resp /\
       Body resp = Ok body /\
       StatusCode resp = 200 /\
       json_Unmarshal_MultiRegistrationsResponse body = Ok dto) /\
  (forall e : error,
     snd (result (call net GetAllServiceEndpoints k)) = Some e ->
     fst (result (call net GetAllServiceEndpoints k)) = []).
Proof.
  rewrite GetAllServiceEndpoints_call. unfold result. split.
  - split.
    + destruct (url_Parse _); [discriminate |]. cbn [fst].
      destruct (net [] _) as [resp | terr]; [| discriminate].
      destruct (Body resp) as [body | rerr] eqn:Hbody; [| discriminate].
      destruct (Z.eqb_spec (StatusCode resp) 200) as [Hs | Hs].
      * destruct (json_Unmarshal_MultiRegistrationsResponse body) as [dto | derr] eqn:Hd;
          [| discriminate].
        intros _. exists resp, body, dto. repeat split; assumption.
      * split_outcome; discriminate.
    + intros (resp & body & dto & Hurl & Hnet & Hbody & Hs & Hd).
      rewrite Hurl, Hnet, Hbody, Hs, Hd. reflexivity.
  - intros e. split_outcome; cbn [fst snd]; intros H;
      first [reflexivity | discriminate H].
Qed.

Lemma GetAllServiceEndpoints_nothing_on_failure_witness :
  result (call (Sample.registry (Sample.answer 500 (Sample.envelope "database is down"))
                  Sample.offline_answer)
            (GetAllServiceEndpoints (rt := Sample.rt)) Sample.lookup_k)
  = ([], Some "failed to get all service endpoints: database is down").
Proof.
  assert (Herr :
    snd (result (call (Sample.registry
                         (Sample.answer 500 (Sample.envelope "database is down"))
                         Sample.offline_answer)
                   (GetAllServiceEndpoints (rt := Sample.rt)) Sample.lookup_k))
    = Some "failed to get all service endpoints: database is down").
  { reflexivity. }
  pose proof (proj2 (GetAllServiceEndpoints_nothing_on_failure (rt := Sample.rt) _ _)
                _ Herr) as Hnil.
  apply injective_projections; [exact Hnil | exact Herr].
Defined.

(** ** Bodies that cannot be used *)

(** X9. A refusal whose body is not an error envelope is reported as a
    decoding error that carries the decoder's message, never as a registry
    message: in [Unregister], [GetServiceEndpoint], [GetAllServiceEndpoints],
    [IsServiceAvailable] and [Register] alike. *)
Theorem undecodable_refusal_is_a_decode_error `{rt : Runtime}
    (net : Network) (k : keeperClient)
    (resp : Response) (body : string) (err : error) :
  Body resp = Ok body ->
  json_Unmarshal_BaseResponse body = Err err ->
  (url_Parse (registration_url k (serviceKey k)) = None ->
   net [] (unregister_request k) = Ok resp ->
   StatusCode resp <> 204 ->
   result (call net Unregister k) = Some ("failed to decode response body: " +:+ err)) /\
  (forall key : string,
     url_Parse (registration_url k key) = None ->
     net [] (fetch_request k key) = Ok resp ->
     StatusCode resp <> 200 ->
     result (call net (GetServiceEndpoint key) k)
     = (ServiceEndpoint.zero, Some ("failed to decode response body: " +:+ err))) /\
  (url_Parse (GetRegistryUrl (config k) +:+ ApiAllRegistrationRoute) = None ->
   net [] (fetch_all_request k) = Ok resp ->
   StatusCode resp <> 200 ->
   result (call net GetAllServiceEndpoints k)
   = ([], Some ("failed to decode response body: " +:+ err))) /\
  (forall key : string,
     url_Parse (registration_url k key) = None ->
     net [] (fetch_request k key) = Ok resp ->
     StatusCode resp <> 200 -> StatusCode resp <> 404 ->
     result (call net (IsServiceAvailable key) k)
     = (false, Some ("failed to decode response body: " +:+ err))) /\
  (forall (data : string) (probe : Response),
     registration_data_set k ->
     json_Marshal (registrationReq k) = Ok data ->
     url_Parse (registration_url k (serviceKey k)) = None ->
     url_Parse (GetRegistryUrl (config k) +:+ ApiRegisterRoute) = None ->
     net [] (fetch_request k (serviceKey k)) = Ok probe ->
     net [fetch_request k (serviceKey k)]
         (register_request k
            (if StatusCode probe =? 200 then MethodPut else MethodPost) data)
     = Ok resp ->
     StatusCode resp <> 201 -> StatusCode resp <> 204 ->
     result (call net Register k) = Some ("failed to decode response body: " +:+ err)).
Proof.
  intros Hbody Hdecode.
  split; [| split; [| split; [| split]]].
  - intros Hurl Hnet Hs. apply Z.eqb_neq in Hs.
    rewrite Unregister_call, Hurl, Hnet, Hs.
    unfold result, envelope_error; cbn [fst snd]. rewrite Hbody, Hdecode. reflexivity.
  - intros key Hurl Hnet Hs. apply Z.eqb_neq in Hs.
    rewrite GetServiceEndpoint_call, Hurl, Hnet, Hbody, Hs, Hdecode. reflexivity.
  - intros Hurl Hnet Hs. apply Z.eqb_neq in Hs.
    rewrite GetAllServiceEndpoints_call, Hurl, Hnet, Hbody, Hs, Hdecode. reflexivity.
  - intros key Hurl Hnet H200 H404. apply Z.eqb_neq in H200, H404.
    rewrite IsServiceAvailable_call, Hurl, Hnet, Hbody, H200, H404, Hdecode.
    reflexivity.
  - intros data probe Hset Hdata Hurl Hreg Hprobe Hnet H201 H204.
    apply Z.eqb_neq in H201, H204.
    rewrite (Register_call net k Hset), Hdata, Hurl, Hprobe. cbv zeta.
    rewrite Hreg, Hnet, H201, H204.
    unfold result, envelope_error; cbn [fst snd orb]. rewrite Hbody, Hdecode.
    reflexivity.
Qed.

Lemma undecodable_refusal_is_a_decode_error_witness :
  result (call (Sample.registry Sample.offline_answer (Sample.answer 502 "Bad Gateway"))
            (Unregister (rt := Sample.rt)) Sample.k)
  = Some "failed to decode response body: invalid character looking for beginning of value".
Proof.
  apply (proj1 (undecodable_refusal_is_a_decode_error (rt := Sample.rt)
                  (Sample.registry Sample.offline_answer
                     (Sample.answer 502 "Bad Gateway"))
                  Sample.k
                  {| StatusCode := 502; Body := Ok "Bad Gateway" |}
                  "Bad Gateway"
                  "invalid character looking for beginning of value"
                  eq_refl eq_refl));
    [reflexivity | reflexivity | simpl; lia].
Defined.

(** X10. The body is read at different moments.  The three lookups read it
    before they look at the status, so an unreadable body fails them even
    under 200, and under 404 in [IsServiceAvailable].  [Register] and
    [Unregister] read it only to explain a refusal, so an answer of 204
    with an unreadable body is a success. *)
Theorem unreadable_body_fails_lookups_only `{rt : Runtime}
    (net : Network) (k : keeperClient) (resp : Response) (err : error) :
  Body resp = Err err ->
  (forall key : string,
     url_Parse (registration_url k key) = None ->
     net [] (fetch_request k key) = Ok resp ->
     result (call net (GetServiceEndpoint key) k)
     = (ServiceEndpoint.zero, Some ("failed to read response body: " +:+ err)) /\
     result (call net (IsServiceAvailable key) k)
     = (false, Some ("failed to read response body: " +:+ err))) /\
  (url_Parse (GetRegistryUrl (config k) +:+ ApiAllRegistrationRoute) = None ->
   net [] (fetch_all_request k) = Ok resp ->
   result (call net GetAllServiceEndpoints k)
   = ([], Some ("failed to read response body: " +:+ err))) /\
  (url_Parse (registration_url k (serviceKey k)) = None ->
   net [] (unregister_request k) = Ok resp ->
   result (call net Unregister k)
   = if StatusCode resp =? 204 then None
     else Some ("failed to read response body: " +:+ err)) /\
  (forall (data : string) (probe : Response),
     registration_data_set k ->
     json_Marshal (registrationReq k) = Ok data ->
     url_Parse (registration_url k (serviceKey k)) = None ->
     url_Parse (GetRegistryUrl (config k) +:+ ApiRegisterRoute) = None ->
     net [] (fetch_request k (serviceKey k)) = Ok probe ->
     net [fetch_request k (serviceKey k)]
         (register_request k
            (if StatusCode probe =? 200 then MethodPut else MethodPost) data)
     = Ok resp ->
     result (call net Register k)
     = if (StatusCode resp =? 201) || (StatusCode resp =? 204) then None
       else Some ("failed to read response body: " +:+ err)).
Proof.
  intros Hbody.
  split; [| split; [| split]].
  - intros key Hurl Hnet.
    rewrite GetServiceEndpoint_call, IsServiceAvailable_call, Hurl, Hnet, Hbody.
    split; reflexivity.
  - intros Hurl Hnet.
    rewrite GetAllServiceEndpoints_call, Hurl, Hnet, Hbody. reflexivity.
  - intros Hurl Hnet.
    rewrite Unregister_call, Hurl, Hnet.
    unfold result, envelope_error; cbn [fst snd]. rewrite Hbody. reflexivity.
  - intros data probe Hset Hdata Hurl Hreg Hprobe Hnet.
    rewrite (Register_call net k Hset), Hdata, Hurl, Hprobe. cbv zeta.
    rewrite Hreg, Hnet.
    unfold result, envelope_error; cbn [fst snd]. rewrite Hbody. reflexivity.
Qed.

Lemma unreadable_body_fails_lookups_only_witness :
  result (call (fun _ _ => Ok {| StatusCode := 204; Body := Err "unexpected EOF" |})
            (GetAllServiceEndpoints (rt := Sample.rt)) Sample.k)
  = ([], Some "failed to read response body: unexpected EOF")
  /\ result (call (fun _ _ => Ok {| StatusCode := 204; Body := Err "unexpected EOF" |})
               (Unregister (rt := Sample.rt)) Sample.k)
     = None.
Proof.
  destruct (unreadable_body_fails_lookups_only (rt := Sample.rt)
              (fun _ _ => Ok {| StatusCode := 204; Body := Err "unexpected EOF" |})
              Sample.k
              {| StatusCode := 204; Body := Err "unexpected EOF" |}
              "unexpected EOF" eq_refl)
    as (_ & Hall & Hunregister & _).
  split; [apply Hall | apply Hunregister]; reflexivity.
Defined.

(** ** A client as the constructor builds it *)

Lemma NewKeeperClient_fields `{rt : Runtime} (cfg : Config.t) (c : keeperClient) :
  NewKeeperClient cfg = Ret (c, None) ->
  config c = cfg /\ keeperUrl c = GetRegistryUrl cfg /\
  serviceKey c = Config.ServiceKey cfg /\
  ((Config.ServiceHost cfg = "" /\ serviceHost c = "") \/
   (Config.ServiceHost cfg <> "" /\
    serviceHost c = Config.ServiceHost cfg /\
    servicePort c = Config.ServicePort cfg /\
    healthCheckRoute c = Config.CheckRoute cfg /\
    healthCheckInterval c = Config.CheckInterval cfg)).
Proof.
  unfold NewKeeperClient. cbn.
  destruct (String.eqb_spec (Config.ServiceHost cfg) "") as [Hhost | Hhost];
    cbn; intros Hnew; injection Hnew as <-; cbn.
  - repeat split. left. split; [exact Hhost | reflexivity].
  - repeat split. right. repeat split. exact Hhost.
Qed.

(** X11. A client built by [NewKeeperClient] passes the guard of [Register]
    exactly when the configuration carries all five fields: key, host, port,
    route and interval.  With any of them missing, [Register] on that client
    fails with the configuration error and sends nothing, whatever the
    registry is. *)
Theorem constructed_client_registers_iff_complete `{rt : Runtime}
    (cfg : Config.t) (c : keeperClient) :
  NewKeeperClient cfg = Ret (c, None) ->
  (registration_data_set c <-> complete_configuration cfg) /\
  (~ complete_configuration cfg ->
   forall net : Network,
     call net Register c
     = (Some "unable to register service with keeper: Service information not set",
        c, [])).
Proof.
  intros Hnew.
  destruct (NewKeeperClient_fields cfg c Hnew) as (_ & _ & Hkey & Hrest).
  assert (Hiff : registration_data_set c <-> complete_configuration cfg).
  { unfold registration_data_set, complete_configuration. rewrite Hkey.
    destruct Hrest as [[Hcfg Hc] | (Hcfg & -> & -> & -> & ->)].
    - rewrite Hcfg, Hc. split; intros (_ & Hne & _); contradiction.
    - reflexivity. }
  split; [exact Hiff |].
  intros Hincomplete net.
  destruct (Register_guard_cases c) as [Hmissing | Hset].
  - unfold call. rewrite (Register_guard_fires c Hmissing). reflexivity.
  - exfalso. apply Hincomplete, Hiff, Hset.
Qed.

Lemma constructed_client_registers_iff_complete_witness :
  ~ complete_configuration Sample.partial_cfg
  /\ call Sample.offline (Register (rt := Sample.rt)) (Sample.client_of Sample.partial_cfg)
     = (Some "unable to register service with keeper: Service information not set",
        Sample.client_of Sample.partial_cfg, []).
Proof.
  assert (Hincomplete : ~ complete_configuration Sample.partial_cfg).
  { intros (_ & _ & _ & Hroute & _). apply Hroute. reflexivity. }
  split; [exact Hincomplete |].
  apply (proj2 (constructed_client_registers_iff_complete (rt := Sample.rt)
                  Sample.partial_cfg (Sample.client_of Sample.partial_cfg) eq_refl)
           Hincomplete).
Defined.

Lemma prefix_append (a b : string) : String.prefix a (a +:+ b) = true.
Proof.
  induction a as [| c a IH]; simpl.
  - destruct b; reflexivity.
  - destruct (ascii_dec c c) as [_ | Hne]; [exact IH | contradiction].
Qed.

Lemma in_at_most_one (t : list Request) (r req : Request) :
  t = [] \/ t = [r] -> In req t -> req = r.
Proof.
  intros [-> | ->] Hin.
  - destruct Hin.
  - destruct Hin as [<- | []]. reflexivity.
Qed.

(** X12. A client built by [NewKeeperClient] builds requests for the
    registry of its configuration only: the URL of every request that any
    of its operations hands to the HTTP client starts with the registry URL
    derived from the configuration.  Where a redirect takes the HTTP client
    from there is outside this statement. *)
Theorem constructed_client_builds_registry_urls `{rt : Runtime}
    (cfg : Config.t) (c : keeperClient) (net : Network) (req : Request) :
  NewKeeperClient cfg = Ret (c, None) ->
  In req (trace (call net Register c)) \/
  In req (trace (call net Unregister c)) \/
  In req (trace (call net IsAlive c)) \/
  In req (trace (call net GetAllServiceEndpoints c)) \/
  (exists key : string,
     In req (trace (call net (GetServiceEndpoint key) c)) \/
     In req (trace (call net (IsServiceAvailable key) c))) ->
  String.prefix (GetRegistryUrl cfg) (req_URL req) = true.
Proof.
  intros Hnew Hsent.
  destruct (NewKeeperClient_fields cfg c Hnew) as (Hcfg & Hurl & _).
  destruct Hsent as [Hin | [Hin | [Hin | [Hin | (key & [Hin | Hin])]]]].
  - destruct (Register_trace_shape net c)
      as [Ht | [Ht | (probe & data & _ & _ & _ & Ht)]]; rewrite Ht in Hin.
    + destruct Hin.
    + destruct Hin as [<- | []]. cbn. unfold registration_url.
      rewrite Hcfg. apply prefix_append.
    + destruct Hin as [<- | [<- | []]]; cbn; unfold registration_url;
        rewrite Hcfg; apply prefix_append.
  - rewrite (in_at_most_one _ _ _ (Unregister_trace net c) Hin).
    cbn. unfold registration_url. rewrite Hcfg. apply prefix_append.
  - rewrite (in_at_most_one _ _ _ (IsAlive_trace net c) Hin).
    cbn. rewrite Hurl. apply prefix_append.
  - rewrite (in_at_most_one _ _ _ (GetAllServiceEndpoints_trace net c) Hin).
    cbn. rewrite Hcfg. apply prefix_append.
  - rewrite (in_at_most_one _ _ _ (GetServiceEndpoint_trace net c key) Hin).
    cbn. unfold registration_url. rewrite Hcfg. apply prefix_append.
  - rewrite (in_at_most_one _ _ _ (IsServiceAvailable_trace net c key) Hin).
    cbn. unfold registration_url. rewrite Hcfg. apply prefix_append.
Qed.

Lemma constructed_client_builds_registry_urls_witness :
  In (ping_request (rt := Sample.rt) Sample.k)
     (trace (call Sample.offline (IsAlive (rt := Sample.rt)) Sample.k))
  /\ String.prefix "http://localhost:59890"
       (req_URL (ping_request (rt := Sample.rt) Sample.k)) = true.
Proof.
  assert (Hin : In (ping_request (rt := Sample.rt) Sample.k)
                   (trace (call Sample.offline (IsAlive (rt := Sample.rt)) Sample.k))).
  { left. reflexivity. }
  split; [exact Hin |].
  apply (constructed_client_builds_registry_urls (rt := Sample.rt)
           Sample.cfg Sample.k Sample.offline _ eq_refl).
  right; right; left. exact Hin.
Defined.

(** ** Availability, spelled out *)

(** X13. For a record fetched with status 200 whose status field is plain
    ASCII, [IsServiceAvailable] answers (true, nil) exactly for the four
    spellings [up], [Up], [uP], [UP] of the status; any other ASCII status,
    empty, longer or padded, is reported as not healthy. *)
Theorem IsServiceAvailable_accepts_four_spellings `{rt : Runtime}
    (net : Network) (k : keeperClient) (key : string)
    (resp : Response) (body : string) (r : RegistrationResponse) :
  url_Parse (registration_url k key) = None ->
  net [] (fetch_request k key) = Ok resp ->
  Body resp = Ok body ->
  StatusCode resp = 200 ->
  json_Unmarshal_RegistrationResponse body = Ok r ->
  all_ascii (RegistrationDTO.Status (Registration r)) ->
  (result (call net (IsServiceAvailable key) k) = (true, None) <->
     RegistrationDTO.Status (Registration r) = "up" \/
     RegistrationDTO.Status (Registration r) = "Up" \/
     RegistrationDTO.Status (Registration r) = "uP" \/
     RegistrationDTO.Status (Registration r) = "UP") /\
  (result (call net (IsServiceAvailable key) k) <> (true, None) ->
   result (call net (IsServiceAvailable key) k)
   = (false, Some (" " +:+ key +:+ " service not healthy..."))).
Proof.
  intros Hurl Hnet Hbody Hs Hr Hascii.
  rewrite IsServiceAvailable_call, Hurl, Hnet, Hbody, Hs, Hr.
  unfold result; cbn [fst snd Z.eqb Pos.eqb].
  pose proof (EqualFold_up _ Hascii) as Hup.
  destruct (EqualFold (RegistrationDTO.Status (Registration r)) "up"); split.
  - split; [intros _; apply Hup; reflexivity | reflexivity].
  - intros Hne. contradiction Hne. reflexivity.
  - split; [discriminate |]. intros Hspelling.
    apply Hup in Hspelling. discriminate Hspelling.
  - reflexivity.
Qed.

Lemma IsServiceAvailable_accepts_four_spellings_witness :
  result (call (Sample.registry
                  (Sample.answer 200
                     (Sample.one (Sample.record "core-data" "10.0.0.7" 59880 "uP")))
                  Sample.offline_answer)
            (IsServiceAvailable (rt := Sample.rt) "core-data") Sample.lookup_k)
  = (true, None).
Proof.
  apply (proj1 (IsServiceAvailable_accepts_four_spellings (rt := Sample.rt)
                  (Sample.registry
                     (Sample.answer 200
                        (Sample.one (Sample.record "core-data" "10.0.0.7" 59880 "uP")))
                     Sample.offline_answer)
                  Sample.lookup_k "core-data"
                  {| StatusCode := 200;
                     Body := Ok (Sample.one
                                   (Sample.record "core-data" "10.0.0.7" 59880 "uP")) |}
                  (Sample.one (Sample.record "core-data" "10.0.0.7" 59880 "uP"))
                  {| Registration :=
                       Sample.registration_of
                         (Sample.one (Sample.record "core-data" "10.0.0.7" 59880 "uP")) |}
                  eq_refl eq_refl eq_refl eq_refl eq_refl
                  ltac:(intros c Hc; vm_compute in Hc;
                        destruct Hc as [<- | [<- | []]]; reflexivity))).
  right; right; left. reflexivity.
Defined.

(** ** A registry that cannot be reached *)


